(** * Certificate selection and renewal decision of [lambda/lambda.py]

    A shallow embedding of the Lambda function that keeps a Let's Encrypt
    certificate in ACM up to date, together with the properties its
    specification states about it.

    The Python module talks to two AWS services through boto3 (ACM, the
    certificate inventory, and SSM, the secret store), reads the clock,
    prints log lines and uses a temporary directory.  All of that lives in
    an explicit [World]; every function of the module is a computation in a
    state-and-exception monad over it. *)

From Stdlib Require Import ZArith Lia Bool Ascii String List.
From stdpp Require Import base gmap strings list pretty.

Open Scope Z_scope.

(** ** Python strings

    A [str] value is modelled as the [string] of its UTF-8 text.  Looking
    for an ASCII piece, splitting at an ASCII character and comparing are
    the same on the text as on the characters it encodes.  [str.lower] is
    another matter: it follows the Unicode tables of the interpreter, which
    are no part of the module, and is a component of the [World] below
    ([str_lower]).  [ascii_lower] is what it does to ASCII text. *)

Module PyStr.

Definition ascii_lower_char (c : ascii) : ascii :=
  let n := N_of_ascii c in
  if ((65 <=? n) && (n <=? 90))%N then ascii_of_N (n + 32) else c.

(** The letters [A]-[Z] in lower case, every other byte as it is. *)
Fixpoint ascii_lower (s : string) : string :=
  match s with
  | EmptyString => EmptyString
  | String c s' => String (ascii_lower_char c) (ascii_lower s')
  end.

(** [sub in s] *)
Fixpoint contains (sub s : string) : bool :=
  String.prefix sub s ||
  match s with
  | EmptyString => false
  | String _ s' => contains sub s'
  end.

(** [s.split(sep)] for a one-character separator: the pieces between the
    separators, never an empty list. *)
Fixpoint split (sep : ascii) (s : string) : list string :=
  match s with
  | EmptyString => [EmptyString]
  | String c s' =>
      if Ascii.eqb c sep then EmptyString :: split sep s'
      else match split sep s' with
           | [] => [String c EmptyString]
           | piece :: pieces => String c piece :: pieces
           end
  end.

(** [xs[-1]] on the result of a split *)
Definition last_piece (xs : list string) : string := List.last xs EmptyString.

(** Truth value of a [str]: only the empty string is false. *)
Definition truthy (s : string) : bool :=
  match s with EmptyString => false | _ => true end.

(** [s.startswith(p)] and [s.endswith(p)] *)
Definition startswith (p s : string) : bool := String.prefix p s.

Definition endswith (p s : string) : bool :=
  String.prefix (String.rev p) (String.rev s).

(** [posixpath.join] of [a] and the components [p] *)
Definition path_join (a : string) (p : list string) : string :=
  fold_left
    (fun path b =>
       if startswith "/" b then b
       else if negb (truthy path) || endswith "/" path then path +:+ b
       else path +:+ "/" +:+ b)
    p a.

(** [sep.join(xs)] *)
Fixpoint join (sep : string) (xs : list string) : string :=
  match xs with
  | [] => EmptyString
  | [x] => x
  | x :: xs' => x +:+ sep +:+ join sep xs'
  end.

(** [message.format] applied to its arguments, for templates whose only
    replacement fields are the automatically numbered [{}]; [None] when the
    arguments run out (Python raises [IndexError]). *)
Fixpoint format (message : string) (args : list string) : option string :=
  match message with
  | String "{" (String "}" rest) =>
      match args with
      | [] => None
      | a :: args' => (fun r => a +:+ r) <$> format rest args'
      end
  | String c rest => String c <$> format rest args
  | EmptyString => Some EmptyString
  end.

End PyStr.

(** ** Python dates

    [datetime.date] and [datetime.datetime] as records of their fields.
    Python keeps these objects valid by construction; the proleptic
    Gregorian ordinal is computed the way CPython's [datetime] does. *)

Module PyDate.

Record date := Date { d_year : Z; d_month : Z; d_day : Z }.

Record datetime := DateTime {
  year : Z; month : Z; day : Z;
  hour : Z; minute : Z; second : Z; microsecond : Z
}.

(** [_is_leap] *)
Definition is_leap (y : Z) : bool :=
  (y mod 4 =? 0) && (negb (y mod 100 =? 0) || (y mod 400 =? 0)).

(** [_days_before_year]: days before January 1st of year [y] *)
Definition days_before_year (y : Z) : Z :=
  let y' := y - 1 in
  y' * 365 + y' / 4 - y' / 100 + y' / 400.

(** [_DAYS_IN_MONTH], index 0 being the placeholder of the table *)
Definition DAYS_IN_MONTH : list Z :=
  [-1; 31; 28; 31; 30; 31; 30; 31; 31; 30; 31; 30; 31].

(** [_DAYS_BEFORE_MONTH], built as in CPython by summing [_DAYS_IN_MONTH] *)
Definition DAYS_BEFORE_MONTH : list Z :=
  [-1; 0; 31; 59; 90; 120; 151; 181; 212; 243; 273; 304; 334].

Definition table (t : list Z) (m : Z) : Z := nth (Z.to_nat m) t 0.

(** [_days_in_month] *)
Definition days_in_month (y m : Z) : Z :=
  if (m =? 2) && is_leap y then 29 else table DAYS_IN_MONTH m.

(** [_days_before_month] *)
Definition days_before_month (y m : Z) : Z :=
  table DAYS_BEFORE_MONTH m + (if (2 <? m) && is_leap y then 1 else 0).

(** [_ymd2ord] and [date.toordinal] *)
Definition ymd2ord (y m d : Z) : Z :=
  days_before_year y + days_before_month y m + d.

Definition toordinal (d : date) : Z := ymd2ord (d_year d) (d_month d) (d_day d).

(** [(a - b).days]: the difference of two dates is the [timedelta] of the
    difference of their ordinals. *)
Definition sub_days (a b : date) : Z := toordinal a - toordinal b.

(** [datetime.__le__] for datetimes of one time zone: the comparison of the
    tuples of fields, left to right. *)
Definition fields (t : datetime) : list Z :=
  [year t; month t; day t; hour t; minute t; second t; microsecond t].

Fixpoint tuple_le (a b : list Z) : bool :=
  match a, b with
  | [], _ => true
  | _ :: _, [] => false
  | x :: a', y :: b' => (x <? y) || ((x =? y) && tuple_le a' b')
  end.

Definition datetime_le (a b : datetime) : bool := tuple_le (fields a) (fields b).

(** The calendar itself, independent of ordinals: what a date is, and the
    day after it. *)
Definition valid_date (d : date) : Prop :=
  1 <= d_month d <= 12 /\ 1 <= d_day d <= days_in_month (d_year d) (d_month d).

Definition next_day (d : date) : date :=
  if d_day d <? days_in_month (d_year d) (d_month d)
  then Date (d_year d) (d_month d) (d_day d + 1)
  else if d_month d <? 12
       then Date (d_year d) (d_month d + 1) 1
       else Date (d_year d + 1) 1 1.

(** [d + timedelta(days=n)], by the calendar *)
Fixpoint add_days (n : nat) (d : date) : date :=
  match n with
  | O => d
  | S n' => next_day (add_days n' d)
  end.

End PyDate.


Import PyDate.

(** ** Exceptions and results *)

Inductive exn :=
| ClientError (service code : string)  (* the error of a boto3 call *)
| NameError (name : string)
| KeyError (key : string)
| IndexError
| AttributeError (attr : string)
| FileNotFoundError (path : string)
| OSError (message : string)
| ParamValidationError (message : string)  (* botocore, before a request *)
| CertbotError (message : string).

Inductive result (A : Type) :=
| Ok (a : A)
| Raise (e : exn).

Arguments Ok {A} a.
Arguments Raise {A} e.

(** ** The outside world *)

(** What ACM keeps about a certificate. *)
Module ACM.

(** The ['Certificate'] member of a [describe_certificate] response; its
    ['DomainName'] and ['CertificateArn'] also make the entry of
    ['CertificateSummaryList'].  ['ImportedAt'] is only present for imported
    certificates. *)
Record detail := Detail {
  CertificateArn : string;
  DomainName : string;
  Status : string;
  SubjectAlternativeNames : list string;
  Issuer : string;
  ImportedAt : option datetime;
  NotAfter : datetime
}.

(** One stored certificate: its metadata and the PEM texts returned by
    [get_certificate]. *)
Record entry := Entry {
  info : detail;
  Certificate : string;
  CertificateChain : string
}.

Record summary := Summary {
  summary_CertificateArn : string;
  summary_DomainName : string
}.

Definition summary_of (e : entry) : summary :=
  Summary (CertificateArn (info e)) (DomainName (info e)).

End ACM.

(** The calls made to the outside, as far as they can fail on their own. *)
Inductive api_call :=
| ListCertificates
| DescribeCertificate (arn : string)
| GetCertificate (arn : string)
| ImportCertificate
| GetParameter (name : string)
| PutParameter (name : string)
| MakeTemporaryDirectory.

Record World := mkWorld {
  (** ACM: the stored certificates in the order ACM lists them, and the
      number of summaries on a page of the listing (one more than the field). *)
  acm_certificates : list ACM.entry;
  acm_page_size : nat;
  (** what ACM records for a PEM body and chain imported into the given
      inventory: the ARN it assigns, the metadata it reads, the import time *)
  acm_new_detail : list ACM.entry -> string -> string -> ACM.detail;
  (** SSM: parameter values by name *)
  ssm_parameters : gmap string string;
  (** the service errors (error code) that calls meet, whatever is stored *)
  fault : api_call -> option string;
  (** the clock *)
  today : date;
  (** standard output, the oldest line first *)
  stdout : list string;
  (** the file system, the name handed out for the next temporary directory,
      and what the certbot program does to the file system for its
      arguments ([None]: it fails) *)
  files : gmap string string;
  next_temporary_directory : string;
  certbot_program : list string -> gmap string string -> option (gmap string string);
  (** the interpreter: what [str.lower()] gives, by its Unicode tables *)
  str_lower : string -> string
}.

(** ** Computations: state and exceptions

    A raised exception keeps the effects that came before it. *)

Definition M (A : Type) : Type := World -> result A * World.

#[global] Instance M_ret : MRet M := fun A (a : A) (w : World) => (Ok a, w).

#[global] Instance M_bind : MBind M := fun A B (f : A -> M B) (c : M A) (w : World) =>
  match c w with
  | (Ok a, w') => f a w'
  | (Raise e, w') => (Raise e, w')
  end.

Definition raise {A} (e : exn) : M A := fun w => (Raise e, w).

Definition get_world : M World := fun w => (Ok w, w).

Definition put_world (w' : World) : M unit := fun _ => (Ok tt, w').

(** [try: body / except: handler / else: orelse]; [handler] says which
    exceptions the [except] clauses catch. *)
Definition try_except_else {A B} (body : M A) (handler : exn -> option (M B))
    (orelse : A -> M B) : M B := fun w =>
  match body w with
  | (Ok a, w') => orelse a w'
  | (Raise e, w') =>
      match handler e with
      | Some h => h w'
      | None => (Raise e, w')
      end
  end.

(** [for x in xs: body], threading the variables the loop assigns *)
Fixpoint for_each {A S} (xs : list A) (body : S -> A -> M S) (s : S) : M S :=
  match xs with
  | [] => mret s
  | x :: xs' => s' ← body s x; for_each xs' body s'
  end.

(** A boto3 call: the service error it meets, or its answer. *)
Definition call {A} (service : string) (c : api_call) (answer : M A) : M A :=
  w ← get_world;
  match fault w c with
  | Some code => raise (ClientError service code)
  | None => answer
  end.

(** ** The boto3 clients [acm] and [ssm], the clock, files, [print] *)

(** The pages of a listing: [S size] items each, a single empty page for an
    empty listing. *)
Fixpoint pages_from {A} (size : nat) (page : list A) (room : nat) (l : list A)
  : list (list A) :=
  match l with
  | [] => match page with [] => [] | _ => [rev page] end
  | x :: l' =>
      match room with
      | O => rev (x :: page) :: pages_from size [] size l'
      | S room' => pages_from size (x :: page) room' l'
      end
  end.

Definition pages {A} (size : nat) (l : list A) : list (list A) :=
  match l with
  | [] => [[]]
  | _ => pages_from size [] size l
  end.

Definition has_status (statuses : list string) (e : ACM.entry) : bool :=
  existsb (String.eqb (ACM.Status (ACM.info e))) statuses.

Definition find_entry (arn : string) (certs : list ACM.entry) : option ACM.entry :=
  List.find (fun e => String.eqb (ACM.CertificateArn (ACM.info e)) arn) certs.

(** [acm.get_paginator('list_certificates').paginate(CertificateStatuses=...)]:
    the ['CertificateSummaryList'] of every page *)
Definition acm_list_certificates_pages (statuses : list string)
  : M (list (list ACM.summary)) :=
  call "acm" ListCertificates
    (w ← get_world;
     mret (pages (acm_page_size w)
             (map ACM.summary_of
                (List.filter (has_status statuses) (acm_certificates w))))).

(** [acm.describe_certificate(CertificateArn=arn)['Certificate']] *)
Definition acm_describe_certificate (arn : string) : M ACM.detail :=
  call "acm" (DescribeCertificate arn)
    (w ← get_world;
     match find_entry arn (acm_certificates w) with
     | Some e => mret (ACM.info e)
     | None => raise (ClientError "acm" "ResourceNotFoundException")
     end).

(** [acm.get_certificate(CertificateArn=arn)] *)
Definition acm_get_certificate (arn : string) : M ACM.entry :=
  call "acm" (GetCertificate arn)
    (w ← get_world;
     match find_entry arn (acm_certificates w) with
     | Some e => mret e
     | None => raise (ClientError "acm" "ResourceNotFoundException")
     end).

Definition set_acm_certificates (certs : list ACM.entry) (w : World) : World :=
  mkWorld certs (acm_page_size w) (acm_new_detail w) (ssm_parameters w)
    (fault w) (today w) (stdout w) (files w) (next_temporary_directory w)
    (certbot_program w) (str_lower w).

Definition set_ssm_parameters (params : gmap string string) (w : World) : World :=
  mkWorld (acm_certificates w) (acm_page_size w) (acm_new_detail w) params
    (fault w) (today w) (stdout w) (files w) (next_temporary_directory w)
    (certbot_program w) (str_lower w).

Definition set_stdout (lines : list string) (w : World) : World :=
  mkWorld (acm_certificates w) (acm_page_size w) (acm_new_detail w)
    (ssm_parameters w) (fault w) (today w) lines (files w)
    (next_temporary_directory w) (certbot_program w) (str_lower w).

Definition set_files (fs : gmap string string) (w : World) : World :=
  mkWorld (acm_certificates w) (acm_page_size w) (acm_new_detail w)
    (ssm_parameters w) (fault w) (today w) (stdout w) fs
    (next_temporary_directory w) (certbot_program w) (str_lower w).

(** The ['CertificateArn'] of [acm.import_certificate], called with the
    entries of a [dict] as keyword arguments.  boto3 checks the
    keyword arguments before it sends anything: ['Certificate'] and
    ['PrivateKey'] are required, ['CertificateChain'] may be left out, and no
    other name is taken from [lambda.py].  ACM keeps the certificate and
    its chain, not the key. *)
Definition kwarg (key : string) (kwargs : list (string * string)) : option string :=
  snd <$> List.find (fun kv => String.eqb (fst kv) key) kwargs.

Definition acm_import_certificate (kwargs : list (string * string)) : M string :=
  match kwarg "Certificate" kwargs, kwarg "PrivateKey" kwargs with
  | Some certificate, Some _ =>
      if forallb (fun kv => existsb (String.eqb (fst kv))
                    ["Certificate"; "PrivateKey"; "CertificateChain"]%string)
           kwargs
      then
        let chain := default EmptyString (kwarg "CertificateChain" kwargs) in
        call "acm" ImportCertificate
          (w ← get_world;
           let d := acm_new_detail w (acm_certificates w) certificate chain in
           put_world
             (set_acm_certificates
                (acm_certificates w ++ [ACM.Entry d certificate chain]) w);;
           mret (ACM.CertificateArn d))
      else raise (ParamValidationError "Unknown parameter in input")
  | _, _ => raise (ParamValidationError "Missing required parameter in input")
  end.

(** [ssm.get_parameter(Name=name, WithDecryption=True)['Parameter']['Value']];
    the exception class [ssm.exceptions.ParameterNotFound] is the SSM error
    of that code. *)
Definition ssm_ParameterNotFound : exn := ClientError "ssm" "ParameterNotFound".

Definition is_ssm_ParameterNotFound (e : exn) : bool :=
  match e with
  | ClientError service code =>
      String.eqb service "ssm" && String.eqb code "ParameterNotFound"
  | _ => false
  end.

Definition ssm_get_parameter (name : string) : M string :=
  call "ssm" (GetParameter name)
    (w ← get_world;
     match ssm_parameters w !! name with
     | Some value => mret value
     | None => raise ssm_ParameterNotFound
     end).

(** [ssm.put_parameter(Name=name, Description=description, Value=value,
    Type='SecureString', Overwrite=True)]: the value replaces any earlier
    one; the store keeps the description aside. *)
Definition ssm_put_parameter (name description value : string) : M unit :=
  call "ssm" (PutParameter name)
    (w ← get_world;
     put_world (set_ssm_parameters (<[name := value]> (ssm_parameters w)) w)).

(** [datetime.date.today()] *)
Definition date_today : M date := w ← get_world; mret (today w).

(** [s.lower()] *)
Definition lower (s : string) : M string := w ← get_world; mret (str_lower w s).

(** [print(line)] *)
Definition print (line : string) : M unit :=
  w ← get_world; put_world (set_stdout (stdout w ++ [line]) w).

(** [open(path).read()] *)
Definition read_file (path : string) : M string :=
  w ← get_world;
  match files w !! path with
  | Some text => mret text
  | None => raise (FileNotFoundError path)
  end.

(** [with tempfile.TemporaryDirectory() as temp_dir: body]: the directory and
    all below it are removed when the block is left, by an exception too. *)
Definition below (dir path : string) : bool :=
  String.eqb path dir || PyStr.startswith (dir +:+ "/") path.

Definition remove_tree (dir : string) (fs : gmap string string) : gmap string string :=
  filter (fun kv => below dir (fst kv) = false) fs.

Definition with_TemporaryDirectory {A} (body : string -> M A) : M A := fun w =>
  match fault w MakeTemporaryDirectory with
  | Some message => (Raise (OSError message), w)
  | None =>
      let temp_dir := next_temporary_directory w in
      let '(r, w') := body temp_dir w in
      (r, set_files (remove_tree temp_dir (files w')) w')
  end.

(** [d[key]] for a [dict] with string keys, kept in insertion order *)
Definition dict := list (string * string).

Definition dict_get (key : string) (d : dict) : M string :=
  match List.find (fun kv => String.eqb (fst kv) key) d with
  | Some kv => mret (snd kv)
  | None => raise (KeyError key)
  end.

(** [d[key] = value] *)
Definition dict_set (key value : string) (d : dict) : dict :=
  if existsb (fun kv => String.eqb (fst kv) key) d
  then map (fun kv => if String.eqb (fst kv) key then (key, value) else kv) d
  else d ++ [(key, value)].

(** The names bound in the module's global namespace when its functions
    run: the imports, the assignments and the [def]s of [lambda.py], and
    what Python itself puts there. *)
Definition module_globals : list string :=
  [ "__name__"; "__doc__"; "__package__"; "__loader__"; "__spec__";
    "__file__"; "__cached__"; "__builtins__";
    "boto3"; "collections"; "datetime"; "json"; "os"; "subprocess"; "tempfile";
    "DOMAINS"; "SUBJECT"; "EMAIL_ADDRESS"; "FUNCTION_NAME"; "STAGING";
    "Certificate"; "acm"; "ssm";
    "find_latest_cert"; "get_days_remaining"; "get_private_key";
    "get_ssm_param_name"; "import_cert"; "log"; "provision_cert";
    "lambda_handler" ]%string.

(** The names of the [builtins] module (Python 3). *)
Definition builtins : list string :=
  [ "abs"; "aiter"; "all"; "anext"; "any"; "ascii"; "bin"; "bool";
    "breakpoint"; "bytearray"; "bytes"; "callable"; "chr"; "classmethod";
    "compile"; "complex"; "copyright"; "credits"; "delattr"; "dict"; "dir";
    "divmod"; "enumerate"; "eval"; "exec"; "exit"; "filter"; "float";
    "format"; "frozenset"; "getattr"; "globals"; "hasattr"; "hash"; "help";
    "hex"; "id"; "input"; "int"; "isinstance"; "issubclass"; "iter"; "len";
    "license"; "list"; "locals"; "map"; "max"; "memoryview"; "min"; "next";
    "object"; "oct"; "open"; "ord"; "pow"; "print"; "property"; "quit";
    "range"; "repr"; "reversed"; "round"; "set"; "setattr"; "slice";
    "sorted"; "staticmethod"; "str"; "sum"; "super"; "tuple"; "type";
    "vars"; "zip"; "__import__"; "__build_class__"; "__debug__";
    "None"; "True"; "False"; "Ellipsis"; "NotImplemented" ]%string.

(** The exception classes of the [builtins] module. *)
Definition builtin_exceptions : list string :=
  [ "BaseException"; "BaseExceptionGroup"; "Exception"; "ExceptionGroup";
    "GeneratorExit"; "KeyboardInterrupt"; "SystemExit"; "StopIteration";
    "StopAsyncIteration"; "ArithmeticError"; "AssertionError";
    "AttributeError"; "BlockingIOError"; "BrokenPipeError"; "BufferError";
    "ChildProcessError"; "ConnectionAbortedError"; "ConnectionError";
    "ConnectionRefusedError"; "ConnectionResetError"; "EOFError";
    "EnvironmentError"; "FileExistsError"; "FileNotFoundError";
    "FloatingPointError"; "IOError"; "ImportError"; "IndentationError";
    "IndexError"; "InterruptedError"; "IsADirectoryError"; "KeyError";
    "LookupError"; "MemoryError"; "ModuleNotFoundError"; "NameError";
    "NotADirectoryError"; "NotImplementedError"; "OSError"; "OverflowError";
    "PermissionError"; "ProcessLookupError"; "RecursionError";
    "ReferenceError"; "RuntimeError"; "SyntaxError"; "SystemError";
    "TabError"; "TimeoutError"; "TypeError"; "UnboundLocalError";
    "UnicodeDecodeError"; "UnicodeEncodeError"; "UnicodeError";
    "UnicodeTranslateError"; "ValueError"; "ZeroDivisionError";
    "BytesWarning"; "DeprecationWarning"; "EncodingWarning"; "FutureWarning";
    "ImportWarning"; "PendingDeprecationWarning"; "ResourceWarning";
    "RuntimeWarning"; "SyntaxWarning"; "UnicodeWarning"; "UserWarning";
    "Warning" ]%string.

(** Reading a global name inside a function: the module's globals, then the
    builtins, then [NameError]. *)
Definition load_global (name : string) : M unit :=
  if existsb (String.eqb name) module_globals
     || existsb (String.eqb name) (builtins ++ builtin_exceptions)
  then mret tt
  else raise (NameError name).

(** ** The module [lambda.py] *)

(** The module-level constants, read from the environment when the module
    is loaded. *)
Record Globals := mkGlobals {
  DOMAINS : list string;
  SUBJECT : string;
  EMAIL_ADDRESS : string;
  FUNCTION_NAME : string;
  STAGING : bool
}.

(** Lines 10-14: [DOMAINS] is the decoded JSON list of [os.environ['DOMAINS']],
    [SUBJECT = DOMAINS[0]], [STAGING = os.environ['STAGING'] == '1']. *)
Definition load_module (domains : list string) (email_address function_name
    staging : string) : result Globals :=
  match domains with
  | [] => Raise IndexError
  | subject :: _ =>
      Ok (mkGlobals domains subject email_address function_name
            (String.eqb staging "1"))
  end.

(** The named tuple [Certificate]. *)
Module Certificate.

Record t := make {
  Certificate : string;
  CertificateArn : string;
  CertificateChain : string;
  NotAfter : datetime;
  PrivateKey : string
}.

End Certificate.

(** [set(xs)] *)
Definition py_set (xs : list string) : gset string := list_to_set xs.

(** [str(n)] for an [int] *)
Definition str_of_int (n : Z) : string := pretty n.

Section Lambda.

Context (g : Globals).

(** [log(message, *args)]: formats and prints a message. *)
Definition log (message : string) (args : list string) : M unit :=
  message ← match args with
             | [] => mret message
             | _ => match PyStr.format message args with
                    | Some text => mret text
                    | None => raise IndexError
                    end
             end;
  print message.

(** [get_ssm_param_name(cert_arn)]: the SSM parameter name to use for an ACM
    certificate's private key, ['/{}/{}/PrivateKey'.format(FUNCTION_NAME,
    cert_id)]. *)
Definition get_ssm_param_name (cert_arn : string) : string :=
  let cert_id := PyStr.last_piece (PyStr.split "/" cert_arn) in
  "/" +:+ FUNCTION_NAME g +:+ "/" +:+ cert_id +:+ "/PrivateKey".

(** [get_private_key(cert_arn)]: the value of the SSM parameter that holds
    the private key of an ACM certificate, [None] when there is none. *)
Definition get_private_key (cert_arn : string) : M (option string) :=
  let param_name := get_ssm_param_name cert_arn in
  try_except_else
    (ssm_get_parameter param_name)
    (fun e => if is_ssm_ParameterNotFound e then Some (mret None) else None)
    (fun value => mret (Some value)).

(** The two variables that the loop of [find_latest_cert] assigns, both
    [None] or both set. *)
Definition latest := option (ACM.detail * string).

(** The body of the inner loop of [find_latest_cert], lines 46-83; every
    [continue] leaves the variables as they are. *)
Definition find_latest_cert_step (st : latest) (cert_summary : ACM.summary)
  : M latest :=
  (* Exclude certificates for a different domain. *)
  if negb (String.eqb (ACM.summary_DomainName cert_summary) (SUBJECT g))
  then mret st else
  let cert_arn := ACM.summary_CertificateArn cert_summary in
  cert_info ← acm_describe_certificate cert_arn;
  (* Exclude ACM certificates. *)
  match ACM.ImportedAt cert_info with
  | None => mret st
  | Some imported_at =>
      (* Exclude older certificates. *)
      older ← match st with
               | Some (latest_cert_info, _) =>
                   match ACM.ImportedAt latest_cert_info with
                   | Some latest_imported_at =>
                       mret (datetime_le imported_at latest_imported_at)
                   | None => raise (KeyError "ImportedAt")
                   end
               | None => mret false
               end;
      if older : bool then mret st else
      (* Exclude certificates with different domains. *)
      let cert_domains := py_set (ACM.SubjectAlternativeNames cert_info) in
      let expected_domains := py_set (DOMAINS g) in
      if negb (bool_decide (cert_domains = expected_domains)) then mret st else
      (* Exclude certificates with the wrong issuer. *)
      issuer ← lower (ACM.Issuer cert_info);
      let cert_staging := PyStr.contains "fake" issuer in
      if negb (Bool.eqb cert_staging (STAGING g)) then mret st else
      (* Get the associated private key from SSM. *)
      private_key ← get_private_key cert_arn;
      match private_key with
      | None => mret st
      | Some private_key =>
          if negb (PyStr.truthy private_key) then mret st else
          mret (Some (cert_info, private_key))
      end
  end.

(** [find_latest_cert()]: the latest active ACM certificate for this domain. *)
Definition find_latest_cert : M (option Certificate.t) :=
  (* List valid certificates. *)
  pages ← acm_list_certificates_pages ["ISSUED"%string];
  st ← for_each pages
         (fun st page => for_each page find_latest_cert_step st)
         (None : latest);
  match st with
  | None =>
      log "No ACM certificate found" [];;
      mret None
  | Some (latest_cert_info, latest_private_key) =>
      let cert_arn := ACM.CertificateArn latest_cert_info in
      log "Found ACM certificate {}" [cert_arn];;
      (* Get the actual certificate and chain. *)
      cert_data ← acm_get_certificate cert_arn;
      mret (Some (Certificate.make
                    (ACM.Certificate cert_data)
                    cert_arn
                    (ACM.CertificateChain cert_data)
                    (ACM.NotAfter latest_cert_info)
                    latest_private_key))
  end.

(** [get_days_remaining(cert)]: the number of days left until an ACM
    certificate expires. *)
Definition get_days_remaining (cert : Certificate.t) : M Z :=
  today ← date_today;
  let expire_date :=
    Date (year (Certificate.NotAfter cert))
         (month (Certificate.NotAfter cert))
         (day (Certificate.NotAfter cert)) in
  let days_remaining := sub_days expire_date today in
  log "Certificate has {} {} remaining"
    [str_of_int days_remaining;
     if (days_remaining =? 1)%Z then "day" else "days"]%string;;
  mret days_remaining.

(** [import_cert(cert_data)]: imports a certificate into ACM and stores its
    private key in SSM. *)
Definition import_cert (cert_data : dict) : M Certificate.t :=
  log "Importing certificate into ACM" [];;
  cert_arn ← acm_import_certificate cert_data;
  log "Storing private key in SSM" [];;
  let param_name := get_ssm_param_name cert_arn in
  let param_desc := "Private key for " +:+ cert_arn in
  private_key ← dict_get "PrivateKey" cert_data;
  ssm_put_parameter param_name param_desc private_key;;
  response ← acm_describe_certificate cert_arn;
  let not_after := ACM.NotAfter response in
  certificate ← dict_get "Certificate" cert_data;
  certificate_chain ← dict_get "CertificateChain" cert_data;
  private_key ← dict_get "PrivateKey" cert_data;
  mret (Certificate.make certificate cert_arn certificate_chain not_after
          private_key).

(** [provision_cert()]: uses certbot to get a certificate from Let's
    Encrypt.  The name [certbot] of line 238 is a global of the module, read
    when the call is reached. *)
Definition provision_cert : M dict :=
  with_TemporaryDirectory (fun temp_dir =>
    log "Running certbot" [];;
    let lets_encrypt_dir := PyStr.path_join temp_dir ["lets-encrypt"%string] in
    let config_dir := PyStr.path_join lets_encrypt_dir ["config"%string] in
    let work_dir := PyStr.path_join lets_encrypt_dir ["work"%string] in
    let logs_dir := PyStr.path_join lets_encrypt_dir ["logs"%string] in
    let certbot_args :=
      [ "certonly"; "--noninteractive"; "--agree-tos";
        "--email"; EMAIL_ADDRESS g;
        "--dns-route53";
        "--domains"; PyStr.join "," (DOMAINS g);
        "--config-dir"; config_dir;
        "--work-dir"; work_dir;
        "--logs-dir"; logs_dir ]%string
      ++ (if STAGING g then ["--staging"%string] else []) in
    load_global "certbot";;
    (w ← get_world;
     match certbot_program w certbot_args (files w) with
     | Some fs => put_world (set_files fs w)
     | None => raise (CertbotError "certbot failed")
     end);;
    let files :=
      [ ("Certificate", "cert.pem");
        ("CertificateChain", "fullchain.pem");
        ("PrivateKey", "privkey.pem") ]%string in
    for_each files
      (fun cert_data '(key, name) =>
         let path := PyStr.path_join config_dir ["live"%string; SUBJECT g; name] in
         text ← read_file path;
         mret (dict_set key text cert_data))
      ([] : dict)).

(** [lambda_handler(event, context)]: manages Let's Encrypt certificates in
    ACM.  The result is the [dict] of lines 267-272. *)
Definition lambda_handler {E C : Type} (event : E) (context : C) : M dict :=
  cert ← find_latest_cert;
  renew ← match cert with
           | None => mret true
           | Some cert => days ← get_days_remaining cert; mret (days <=? 30)
           end;
  cert ← (if renew : bool
           then cert_data ← provision_cert;
                cert ← import_cert cert_data;
                mret (Some cert)
           else mret cert);
  match cert with
  | None => raise (AttributeError "Certificate")
  | Some cert =>
      mret [ ("Certificate", Certificate.Certificate cert);
             ("CertificateArn", Certificate.CertificateArn cert);
             ("CertificateChain", Certificate.CertificateChain cert);
             ("PrivateKey", Certificate.PrivateKey cert) ]%string
  end.

End Lambda.

(** ** Vocabulary of the specification *)

(** The calendar date of a record's [NotAfter], the time of day dropped. *)
Definition expiry_date (cert : Certificate.t) : date :=
  Date (year (Certificate.NotAfter cert)) (month (Certificate.NotAfter cert))
       (day (Certificate.NotAfter cert)).

(** What [lambda_handler] returns for a record: its four texts. *)
Definition payload (cert : Certificate.t) : dict :=
  [ ("Certificate", Certificate.Certificate cert);
    ("CertificateArn", Certificate.CertificateArn cert);
    ("CertificateChain", Certificate.CertificateChain cert);
    ("PrivateKey", Certificate.PrivateKey cert) ]%string.

(** The Renewal Executor as [lambda_handler] runs it, lines 264-265:
    [provision_cert], then [import_cert], and the new record as the result. *)
Definition renewal (g : Globals) : M dict :=
  cert_data ← provision_cert g;
  cert ← import_cert g cert_data;
  mret (payload cert).

(** Nothing was written: the world after is the world before with some
    more lines printed; the inventory, the secret store and the file
    system are what they were. *)
Definition only_printed (w w' : World) : Prop :=
  exists lines, w' = set_stdout (stdout w ++ lines) w.

(** How [provision_cert] ends in [w]. *)
Definition provision_failure (w : World) : exn :=
  match fault w MakeTemporaryDirectory with
  | Some message => OSError message
  | None => NameError "certbot"
  end.

(** The Locator, run in [w], returns the record of the certificate [arn]. *)
Definition selects (g : Globals) (w : World) (arn : string) : bool :=
  match fst (find_latest_cert g w) with
  | Ok (Some cert) => String.eqb (Certificate.CertificateArn cert) arn
  | _ => false
  end.

(** The issuer carries the staging marker: in lower case, as the
    interpreter of [w] puts it, it contains "fake". *)
Definition has_staging_marker (w : World) (issuer : string) : bool :=
  PyStr.contains "fake" (str_lower w issuer).

(** A stored certificate is a candidate when the listing of issued
    certificates shows it under the managed subject. *)
Definition listed (g : Globals) (e : ACM.entry) : bool :=
  has_status ["ISSUED"%string] e
  && String.eqb (ACM.DomainName (ACM.info e)) (SUBJECT g).

(** The private key kept for a certificate: the non-empty value of the
    parameter named after it. *)
Definition stored_key (g : Globals) (w : World) (arn : string) : option string :=
  match ssm_parameters w !! get_ssm_param_name g arn with
  | Some key => if PyStr.truthy key then Some key else None
  | None => None
  end.

(** Eligibility, section 4.1 step 3 of the specification: imported, the
    alternate names equal to the managed domains as sets, the marker in the
    issuer exactly in staging mode, a private key to be had. *)
Definition eligible (g : Globals) (w : World) (e : ACM.entry) : bool :=
  listed g e
  && bool_decide (is_Some (ACM.ImportedAt (ACM.info e)))
  && bool_decide (py_set (ACM.SubjectAlternativeNames (ACM.info e)) = py_set (DOMAINS g))
  && Bool.eqb (PyStr.contains "fake" (str_lower w (ACM.Issuer (ACM.info e)))) (STAGING g)
  && bool_decide (is_Some (stored_key g w (ACM.CertificateArn (ACM.info e)))).

(** [e] was imported no later than [e']. *)
Definition imported_le (e e' : ACM.entry) : bool :=
  match ACM.ImportedAt (ACM.info e), ACM.ImportedAt (ACM.info e') with
  | Some t, Some t' => datetime_le t t'
  | _, _ => false
  end.

(** The record assembled for a stored certificate and its key. *)
Definition record_of (e : ACM.entry) (key : string) : Certificate.t :=
  Certificate.make (ACM.Certificate e) (ACM.CertificateArn (ACM.info e))
    (ACM.CertificateChain e) (ACM.NotAfter (ACM.info e)) key.

(** No call meets a service error, and identifiers are unique. *)
Definition no_faults (w : World) : Prop := forall c, fault w c = None.

Definition unique_arns (w : World) : Prop :=
  NoDup (map (fun e => ACM.CertificateArn (ACM.info e)) (acm_certificates w)).

(** ** Notions used in the proofs *)

(** A computation that only reads: whatever was printed before, it gives
    the same result and leaves the world alone. *)
Definition reads {A} (c : M A) : Prop :=
  forall w out, c (set_stdout out w) = (fst (c w), set_stdout out w).

(** A computation that reads and prints: its result does not depend on what
    was printed before, and it only adds lines to the output. *)
Definition prints {A} (c : M A) : Prop :=
  forall w, exists lines,
    forall out, c (set_stdout out w) = (fst (c w), set_stdout (out ++ lines) w).

(** What holds of the certificate the loop of [find_latest_cert] has kept:
    [d] is what ACM describes under its own identifier, it passed every
    filter, and [key] is the value SSM holds for it. *)
Definition chosen (g : Globals) (w : World) (d : ACM.detail) (key : string) : Prop :=
  fst (acm_describe_certificate (ACM.CertificateArn d) w) = Ok d
  /\ is_Some (ACM.ImportedAt d)
  /\ py_set (ACM.SubjectAlternativeNames d) = py_set (DOMAINS g)
  /\ PyStr.contains "fake" (str_lower w (ACM.Issuer d)) = STAGING g
  /\ fst (ssm_get_parameter (get_ssm_param_name g (ACM.CertificateArn d)) w) = Ok key
  /\ PyStr.truthy key = true.

(** The key the loop of [find_latest_cert] gets to use for a certificate:
    what [get_private_key] gives, a value that is not true counting as
    none. *)
Definition usable_key (g : Globals) (w : World) (arn : string)
  : result (option string) :=
  match fst (get_private_key g arn w) with
  | Ok (Some key) => if PyStr.truthy key then Ok (Some key) else Ok None
  | r => r
  end.

(** The world without one SSM parameter. *)
Definition without_parameter (name : string) (w : World) : World :=
  set_ssm_parameters (delete name (ssm_parameters w)) w.

(** The loop of [find_latest_cert], with [st] kept so far, gets as far as
    the key lookup for [s]: the subject is the managed one, ACM describes an
    imported certificate that is newer than the one kept, and its names and
    issuer pass. *)
Definition looks_up_key (g : Globals) (w : World) (st : latest) (s : ACM.summary)
  : Prop :=
  exists d t,
    ACM.summary_DomainName s = SUBJECT g
    /\ fst (acm_describe_certificate (ACM.summary_CertificateArn s) w) = Ok d
    /\ ACM.ImportedAt d = Some t
    /\ match st with
       | Some (d0, _) =>
           exists t0, ACM.ImportedAt d0 = Some t0 /\ datetime_le t t0 = false
       | None => True
       end
    /\ py_set (ACM.SubjectAlternativeNames d) = py_set (DOMAINS g)
    /\ PyStr.contains "fake" (str_lower w (ACM.Issuer d)) = STAGING g.

(** One turn of the loop of [find_latest_cert] when no call fails, as a
    function of the stored certificate the summary stands for. *)
Definition newer (st : latest) (e : ACM.entry) : bool :=
  match st with
  | None => true
  | Some (d0, _) =>
      match ACM.ImportedAt (ACM.info e), ACM.ImportedAt d0 with
      | Some t, Some t0 => negb (datetime_le t t0)
      | _, _ => false
      end
  end.

Definition pick (g : Globals) (w : World) (st : latest) (e : ACM.entry) : latest :=
  match stored_key g w (ACM.CertificateArn (ACM.info e)) with
  | Some key => if eligible g w e && newer st e then Some (ACM.info e, key) else st
  | None => st
  end.

(** The certificate kept after the entries [es]: none when none of them is
    eligible, otherwise an eligible one imported no earlier than any other. *)
Definition best (g : Globals) (w : World) (es : list ACM.entry) (st : latest)
  : Prop :=
  match st with
  | None => forall e, In e es -> eligible g w e = false
  | Some (d, key) =>
      exists e, In e es /\ ACM.info e = d /\ eligible g w e = true
        /\ stored_key g w (ACM.CertificateArn (ACM.info e)) = Some key
        /\ forall e', In e' es -> eligible g w e' = true ->
                      imported_le e' e = true
  end.

Definition kept (g : Globals) (w : World) (st : latest) : Prop :=
  match st with
  | None => True
  | Some (d, key) => chosen g w d key
  end.

(** ** A sample deployment

    The managed domains [example.com] and [www.example.com] in production
    mode, and an inventory with two certificates this function imported and
    five it must not pick. *)
Module Sample.

Definition globals : Globals :=
  mkGlobals ["example.com"; "www.example.com"]%string "example.com"
    "admin@example.com" "lets-encrypt" false.

Definition noon (y m d : Z) : datetime := DateTime y m d 12 0 0 0.

Definition arn (id : string) : string :=
  "arn:aws:acm:eu-west-1:123456789012:certificate/" +:+ id.

Definition stored (id : string) (names : list string) (issuer : string)
    (imported : option datetime) (not_after : datetime) : ACM.entry :=
  ACM.Entry
    (ACM.Detail (arn id) "example.com" "ISSUED" names issuer imported not_after)
    ("BODY " +:+ id) ("CHAIN " +:+ id).

Definition both : list string := ["www.example.com"; "example.com"]%string.

Definition lets_encrypt : string := "Let's Encrypt Authority X3".

Definition older : ACM.entry :=
  stored "older" both lets_encrypt (Some (noon 2026 9 1)) (noon 2026 11 30).

Definition newest : ACM.entry :=
  stored "newest" both lets_encrypt (Some (noon 2026 10 3)) (noon 2027 1 1).

Definition other_names : ACM.entry :=
  stored "other-names" ["example.com"%string] lets_encrypt
    (Some (noon 2026 11 1)) (noon 2027 1 30).

Definition staging_issuer : ACM.entry :=
  stored "staging" both "Fake LE Intermediate X1"
    (Some (noon 2026 11 2)) (noon 2027 1 31).

Definition no_key : ACM.entry :=
  stored "no-key" both lets_encrypt (Some (noon 2026 11 3)) (noon 2027 2 1).

Definition empty_key : ACM.entry :=
  stored "empty-key" both lets_encrypt (Some (noon 2026 11 3)) (noon 2027 2 1).

Definition amazon_issued : ACM.entry :=
  stored "amazon" both "Amazon" None (noon 2027 6 1).

Definition parameters : gmap string string :=
  list_to_map
    [ ("/lets-encrypt/older/PrivateKey", "KEY older");
      ("/lets-encrypt/newest/PrivateKey", "KEY newest");
      ("/lets-encrypt/other-names/PrivateKey", "KEY other-names");
      ("/lets-encrypt/staging/PrivateKey", "KEY staging");
      ("/lets-encrypt/empty-key/PrivateKey", "");
      ("/lets-encrypt/amazon/PrivateKey", "KEY amazon") ]%string.

(** U+212A KELVIN SIGN, whose lower case is the letter [k]. *)
Definition kelvin_sign : string :=
  String (ascii_of_N 226) (String (ascii_of_N 132) (String (ascii_of_N 170) "")).

(** [str.lower()] on text made of ASCII and the KELVIN SIGN. *)
Fixpoint lower_text (s : string) : string :=
  match s with
  | EmptyString => EmptyString
  | String a t =>
      match t with
      | String b (String c u) =>
          if ((N_of_ascii a =? 226) && (N_of_ascii b =? 132)
              && (N_of_ascii c =? 170))%N
          then String "k" (lower_text u)
          else String (PyStr.ascii_lower_char a) (lower_text t)
      | _ => String (PyStr.ascii_lower_char a) (lower_text t)
      end
  end.

(** The world on a given day: pages of two summaries, no failing call. *)
Definition world_on (day : date) : World :=
  mkWorld
    [older; other_names; newest; staging_issuer; no_key; empty_key; amazon_issued]
    1
    (fun certs body chain =>
       ACM.Detail (arn "imported") "example.com" "ISSUED" both lets_encrypt
         (Some (noon 2026 11 4)) (noon 2027 2 2))
    parameters
    (fun _ => None)
    day
    []
    ∅
    "/tmp/tmpk3x9"
    (fun _ fs => Some fs)
    lower_text.

Definition world : World := world_on (Date 2026 11 4).

(** The same world when some calls fail. *)
Definition world_failing (plan : api_call -> option string) : World :=
  mkWorld (acm_certificates world) (acm_page_size world) (acm_new_detail world)
    (ssm_parameters world) plan (today world) (stdout world) (files world)
    (next_temporary_directory world) (certbot_program world)
    (str_lower world).

(** ACM refuses [describe_certificate] for one certificate. *)
Definition describe_denied (id : string) (c : api_call) : option string :=
  match c with
  | DescribeCertificate a =>
      if String.eqb a (arn id) then Some "AccessDeniedException"%string else None
  | _ => None
  end.

(** SSM answers [get_parameter] for the key of one certificate with an
    error of the given code. *)
Definition key_error (id code : string) (c : api_call) : option string :=
  match c with
  | GetParameter name =>
      if String.eqb name ("/lets-encrypt/" +:+ id +:+ "/PrivateKey")
      then Some code else None
  | _ => None
  end.

Definition newest_record : Certificate.t := record_of newest "KEY newest".

(** The same deployment in staging mode, with a certificate whose issuer
    spells the marker with a KELVIN SIGN. *)
Definition staging_globals : Globals :=
  mkGlobals ["example.com"; "www.example.com"]%string "example.com"
    "admin@example.com" "lets-encrypt" true.

Definition kelvin_issuer : ACM.entry :=
  stored "kelvin" both ("FA" +:+ kelvin_sign +:+ "E LE Intermediate X1")
    (Some (noon 2026 11 2)) (noon 2027 1 31).

Definition staging_world : World :=
  set_ssm_parameters
    (<["/lets-encrypt/kelvin/PrivateKey"%string := "KEY kelvin"%string]> parameters)
    (set_acm_certificates [newest; kelvin_issuer] world).

End Sample.

(** ** Further vocabulary *)

(** The world on another day. *)
Definition set_today (day : date) (w : World) : World :=
  mkWorld (acm_certificates w) (acm_page_size w) (acm_new_detail w)
    (ssm_parameters w) (fault w) day (stdout w) (files w)
    (next_temporary_directory w) (certbot_program w) (str_lower w).

(** The world whose listing has pages of another size. *)
Definition set_page_size (size : nat) (w : World) : World :=
  mkWorld (acm_certificates w) size (acm_new_detail w)
    (ssm_parameters w) (fault w) (today w) (stdout w) (files w)
    (next_temporary_directory w) (certbot_program w) (str_lower w).

(** The certificate kept after the entries [es], with its place among them:
    every eligible entry listed before it was imported strictly earlier,
    every eligible entry listed after it no later. *)
Definition first_best (g : Globals) (w : World) (es : list ACM.entry)
    (st : latest) : Prop :=
  match st with
  | None => forall e, In e es -> eligible g w e = false
  | Some (d, key) =>
      exists before e after,
        es = before ++ e :: after
        /\ ACM.info e = d /\ eligible g w e = true
        /\ stored_key g w (ACM.CertificateArn (ACM.info e)) = Some key
        /\ (forall e', In e' before -> eligible g w e' = true ->
                       imported_le e e' = false)
        /\ (forall e', In e' after -> eligible g w e' = true ->
                       imported_le e' e = true)
  end.

(** The dictionary [provision_cert] hands to [import_cert]. *)
Definition cert_data_of (certificate chain private_key : string) : dict :=
  [ ("Certificate", certificate); ("CertificateChain", chain);
    ("PrivateKey", private_key) ]%string.

(** * Proofs *)

(** ** Running computations *)

Lemma set_stdout_same (w : World) : set_stdout (stdout w) w = w.
Proof. destruct w; reflexivity. Qed.

Lemma run_bind {A B} (c : M A) (f : A -> M B) (w : World) :
  (c ≫= f) w =
  match c w with
  | (Ok a, w') => f a w'
  | (Raise e, w') => (Raise e, w')
  end.
Proof. reflexivity. Qed.

Lemma reads_run {A} (c : M A) (w : World) : reads c -> c w = (fst (c w), w).
Proof.
  intros H. specialize (H w (stdout w)). rewrite set_stdout_same in H. exact H.
Qed.

Lemma reads_ret {A} (a : A) : reads (mret a : M A).
Proof. intros w out. reflexivity. Qed.

Lemma reads_raise {A} (e : exn) : reads (raise e : M A).
Proof. intros w out. reflexivity. Qed.

Lemma reads_bind {A B} (c : M A) (f : A -> M B) :
  reads c -> (forall a, reads (f a)) -> reads (c ≫= f).
Proof.
  intros Hc Hf w out. rewrite !run_bind, (Hc w out), (reads_run c w Hc).
  simpl. destruct (fst (c w)) as [a|e]; [apply Hf | reflexivity].
Qed.

Lemma reads_prints {A} (c : M A) : reads c -> prints c.
Proof.
  intros H w. exists []. intros out. rewrite app_nil_r. apply H.
Qed.

Lemma prints_run {A} (c : M A) (w : World) :
  prints c -> exists lines, c w = (fst (c w), set_stdout (stdout w ++ lines) w).
Proof.
  intros H. destruct (H w) as [lines Hl]. exists lines.
  specialize (Hl (stdout w)). rewrite set_stdout_same in Hl. exact Hl.
Qed.

Lemma prints_bind {A B} (c : M A) (f : A -> M B) :
  prints c -> (forall a, prints (f a)) -> prints (c ≫= f).
Proof.
  intros Hc Hf w. destruct (Hc w) as [l1 H1].
  assert (Hw : c w = (fst (c w), set_stdout (stdout w ++ l1) w)).
  { specialize (H1 (stdout w)). rewrite set_stdout_same in H1. exact H1. }
  destruct (fst (c w)) as [a|e] eqn:Hr.
  - destruct (Hf a w) as [l2 H2]. exists (l1 ++ l2). intros out.
    rewrite !run_bind, H1, Hw, !H2. simpl. rewrite !app_assoc. reflexivity.
  - exists l1. intros out. rewrite !run_bind, H1, Hw. reflexivity.
Qed.

Lemma reads_call {A} (service : string) (c : api_call) (answer : M A) :
  reads answer -> reads (call service c answer).
Proof.
  intros H w out. unfold call. rewrite !run_bind. simpl.
  destruct (fault w c); [reflexivity | apply H].
Qed.

Lemma reads_for_each {A S} (xs : list A) (body : S -> A -> M S) (s : S) :
  (forall s x, reads (body s x)) -> reads (for_each xs body s).
Proof.
  intros Hb. revert s. induction xs as [|x xs IH]; intros s; simpl.
  - apply reads_ret.
  - apply reads_bind; [apply Hb | intros; apply IH].
Qed.

Lemma reads_describe (arn : string) : reads (acm_describe_certificate arn).
Proof.
  apply reads_call. intros w out. unfold mbind, M_bind, get_world. simpl.
  destruct (find_entry arn (acm_certificates w)); reflexivity.
Qed.

Lemma reads_get_certificate (arn : string) : reads (acm_get_certificate arn).
Proof.
  apply reads_call. intros w out. unfold mbind, M_bind, get_world. simpl.
  destruct (find_entry arn (acm_certificates w)); reflexivity.
Qed.

Lemma reads_list (statuses : list string) :
  reads (acm_list_certificates_pages statuses).
Proof. apply reads_call. intros w out. reflexivity. Qed.

Lemma reads_get_parameter (name : string) : reads (ssm_get_parameter name).
Proof.
  apply reads_call. intros w out. unfold mbind, M_bind, get_world. simpl.
  destruct (ssm_parameters w !! name); reflexivity.
Qed.

Lemma reads_today : reads date_today.
Proof. intros w out. reflexivity. Qed.

Lemma reads_lower (s : string) : reads (lower s).
Proof. intros w out. reflexivity. Qed.

Lemma lower_run (s : string) (w : World) : lower s w = (Ok (str_lower w s), w).
Proof. reflexivity. Qed.

Lemma reads_try {A B} (body : M A) (handler : exn -> option (M B))
    (orelse : A -> M B) :
  reads body ->
  (forall e h, handler e = Some h -> reads h) ->
  (forall a, reads (orelse a)) ->
  reads (try_except_else body handler orelse).
Proof.
  intros Hb Hh Ho w out. unfold try_except_else.
  rewrite (Hb w out), (reads_run body w Hb). simpl.
  destruct (fst (body w)) as [a|e]; [apply Ho|].
  destruct (handler e) as [h|] eqn:He; [apply (Hh e h He) | reflexivity].
Qed.

Lemma reads_get_private_key (g : Globals) (arn : string) :
  reads (get_private_key g arn).
Proof.
  apply reads_try.
  - apply reads_get_parameter.
  - intros e h. destruct (is_ssm_ParameterNotFound e); intros [= <-].
    apply reads_ret.
  - intros. apply reads_ret.
Qed.

Ltac reads_tac :=
  repeat first
    [ apply reads_ret | apply reads_raise | apply reads_describe
    | apply reads_get_private_key | apply reads_get_certificate
    | apply reads_list | apply reads_today | apply reads_lower
    | apply reads_bind; [| intros ?]
    | match goal with
      | |- reads (if ?b then _ else _) => destruct b
      | |- reads (match ?x with _ => _ end) => destruct x
      end ].

Lemma reads_step (g : Globals) (st : latest) (s : ACM.summary) :
  reads (find_latest_cert_step g st s).
Proof. unfold find_latest_cert_step. reads_tac. Qed.

Lemma prints_print (line : string) : prints (print line).
Proof. intros w. exists [line]. intros out. reflexivity. Qed.

Lemma prints_log (message : string) (args : list string) : prints (log message args).
Proof.
  unfold log. apply prints_bind.
  - apply reads_prints. destruct args; [apply reads_ret|].
    destruct (PyStr.format message _); [apply reads_ret | apply reads_raise].
  - intros. apply prints_print.
Qed.

Lemma prints_find_latest_cert (g : Globals) : prints (find_latest_cert g).
Proof.
  unfold find_latest_cert. apply prints_bind; [apply reads_prints, reads_list|].
  intros pages. apply prints_bind.
  - apply reads_prints, reads_for_each. intros st page.
    apply reads_for_each. intros; apply reads_step.
  - intros [[d key]|].
    + apply prints_bind; [apply prints_log|]. intros _.
      apply reads_prints. reads_tac.
    + apply prints_bind; [apply prints_log|]. intros _.
      apply reads_prints, reads_ret.
Qed.

Lemma prints_get_days_remaining (cert : Certificate.t) :
  prints (get_days_remaining cert).
Proof.
  unfold get_days_remaining. apply prints_bind; [apply reads_prints, reads_today|].
  intros t. apply prints_bind; [apply prints_log|].
  intros _. apply reads_prints, reads_ret.
Qed.

(** ** The loop of [find_latest_cert] *)

Lemma describe_arn (arn : string) (w : World) (d : ACM.detail) :
  fst (acm_describe_certificate arn w) = Ok d ->
  ACM.CertificateArn d = arn
  /\ exists e, find_entry arn (acm_certificates w) = Some e /\ ACM.info e = d.
Proof.
  unfold acm_describe_certificate, call. rewrite run_bind. simpl.
  destruct (fault w (DescribeCertificate arn)); [discriminate|].
  rewrite run_bind. simpl.
  destruct (find_entry arn (acm_certificates w)) as [e|] eqn:He; [|discriminate].
  simpl. intros [= <-]. split; [|eauto].
  unfold find_entry in He. apply find_some in He as [_ He].
  apply String.eqb_eq in He. exact He.
Qed.

Lemma get_private_key_cases (g : Globals) (arn : string) (w : World) :
  match fst (ssm_get_parameter (get_ssm_param_name g arn) w) with
  | Ok value => fst (get_private_key g arn w) = Ok (Some value)
  | Raise e =>
      if is_ssm_ParameterNotFound e
      then fst (get_private_key g arn w) = Ok None
      else fst (get_private_key g arn w) = Raise e
  end.
Proof.
  unfold get_private_key, try_except_else.
  rewrite (reads_run _ w (reads_get_parameter _)). simpl.
  destruct (fst (ssm_get_parameter _ w)) as [v|e]; [reflexivity|].
  destruct (is_ssm_ParameterNotFound e); reflexivity.
Qed.

Lemma step_cases (g : Globals) (w : World) (st : latest) (s : ACM.summary) :
  kept g w st ->
  match fst (find_latest_cert_step g st s w) with
  | Ok st' =>
      kept g w st' /\
      (st' = st \/
       exists d key, st' = Some (d, key)
         /\ ACM.CertificateArn d = ACM.summary_CertificateArn s
         /\ ACM.summary_DomainName s = SUBJECT g)
  | Raise e => is_ssm_ParameterNotFound e = false
  end.
Proof.
  intros Hst. unfold find_latest_cert_step.
  destruct (String.eqb_spec (ACM.summary_DomainName s) (SUBJECT g)) as [Hs|Hs];
    simpl; [|auto].
  rewrite run_bind, (reads_run _ w (reads_describe _)).
  destruct (fst (acm_describe_certificate _ w)) as [d|e] eqn:Hd; simpl.
  2:{ revert Hd. unfold acm_describe_certificate, call. rewrite run_bind. simpl.
      destruct (fault w _); [intros [= <-]; reflexivity|].
      rewrite run_bind. simpl. destruct (find_entry _ _); [discriminate|].
      intros [= <-]. reflexivity. }
  destruct (ACM.ImportedAt d) as [t|] eqn:Ht; simpl; [|auto].
  destruct (describe_arn _ _ _ Hd) as [Harn _].
  assert (Htail : forall st0 : latest, kept g w st0 ->
    match
      fst ((if negb (bool_decide
                 (py_set (ACM.SubjectAlternativeNames d) = py_set (DOMAINS g)))
            then mret st0
            else lower (ACM.Issuer d)
                 ≫= (fun issuer : string =>
                      if negb (Bool.eqb (PyStr.contains "fake" issuer) (STAGING g))
                      then mret st0
                      else get_private_key g (ACM.summary_CertificateArn s)
                           ≫= (fun private_key : option string =>
                                match private_key with
                                | Some private_key0 =>
                                    if negb (PyStr.truthy private_key0)
                                    then mret st0
                                    else mret (Some (d, private_key0))
                                | None => mret st0
                                end))) w)
    with
    | Ok st' =>
        kept g w st' /\
        (st' = st0 \/
         exists d1 key, st' = Some (d1, key)
           /\ ACM.CertificateArn d1 = ACM.summary_CertificateArn s
           /\ ACM.summary_DomainName s = SUBJECT g)
    | Raise e => is_ssm_ParameterNotFound e = false
    end).
  { intros st0 Hst0.
    destruct (bool_decide_reflect
                (py_set (ACM.SubjectAlternativeNames d) = py_set (DOMAINS g)))
      as [Hset|Hset]; simpl; [|auto].
    rewrite run_bind, lower_run. simpl.
    destruct (Bool.eqb_spec (PyStr.contains "fake" (str_lower w (ACM.Issuer d)))
                (STAGING g)) as [Hiss|Hiss]; simpl; [|auto].
    rewrite run_bind, (reads_run _ w (reads_get_private_key _ _)).
    pose proof (get_private_key_cases g (ACM.summary_CertificateArn s) w) as Hk.
    destruct (fst (ssm_get_parameter _ w)) as [v|e] eqn:Hp.
    - rewrite Hk. simpl. destruct (PyStr.truthy v) eqn:Hv; simpl; [|auto].
      split; [|right; eauto 6].
      unfold chosen. rewrite Harn, Ht. eauto 10.
    - destruct (is_ssm_ParameterNotFound e) eqn:He; rewrite Hk; simpl; auto. }
  rewrite run_bind.
  destruct st as [[d0 k0]|]; simpl.
  - destruct (ACM.ImportedAt d0) as [t0|] eqn:Ht0; simpl; [|reflexivity].
    destruct (datetime_le t t0); [simpl; auto|].
    apply Htail, Hst.
  - apply Htail, Hst.
Qed.

Lemma loop_kept (g : Globals) (w : World) (xs : list ACM.summary) (st : latest) :
  kept g w st ->
  match fst (for_each xs (find_latest_cert_step g) st w) with
  | Ok st' => kept g w st'
  | Raise e => is_ssm_ParameterNotFound e = false
  end.
Proof.
  revert st. induction xs as [|x xs IH]; intros st Hst; simpl; [exact Hst|].
  rewrite run_bind, (reads_run _ w (reads_step g st x)).
  pose proof (step_cases g w st x Hst) as Hx.
  destruct (fst (find_latest_cert_step g st x w)) as [st'|e]; simpl; [|exact Hx].
  apply IH, Hx.
Qed.

Lemma reads_page (g : Globals) (st : latest) (page : list ACM.summary) :
  reads (for_each page (find_latest_cert_step g) st).
Proof. apply reads_for_each. intros. apply reads_step. Qed.

Lemma pages_kept (g : Globals) (w : World) (ps : list (list ACM.summary))
    (st : latest) :
  kept g w st ->
  match
    fst (for_each ps (fun st page => for_each page (find_latest_cert_step g) st)
           st w)
  with
  | Ok st' => kept g w st'
  | Raise e => is_ssm_ParameterNotFound e = false
  end.
Proof.
  revert st. induction ps as [|p ps IH]; intros st Hst; simpl; [exact Hst|].
  rewrite run_bind, (reads_run _ w (reads_page g st p)).
  pose proof (loop_kept g w p st Hst) as Hp.
  destruct (fst (for_each p _ st w)) as [st'|e]; simpl; [|exact Hp].
  apply IH, Hp.
Qed.

Lemma reads_pages (g : Globals) (st : latest) (ps : list (list ACM.summary)) :
  reads (for_each ps (fun st page => for_each page (find_latest_cert_step g) st) st).
Proof. apply reads_for_each. intros. apply reads_page. Qed.

(** The result of [find_latest_cert], step by step. *)
Lemma find_latest_cert_result (g : Globals) (w : World) :
  fst (find_latest_cert g w) =
  match fst (acm_list_certificates_pages ["ISSUED"%string] w) with
  | Raise e => Raise e
  | Ok ps =>
      match
        fst (for_each ps
               (fun st page => for_each page (find_latest_cert_step g) st)
               None w)
      with
      | Raise e => Raise e
      | Ok None => Ok None
      | Ok (Some (d, key)) =>
          match fst (acm_get_certificate (ACM.CertificateArn d) w) with
          | Ok e =>
              Ok (Some (Certificate.make (ACM.Certificate e)
                          (ACM.CertificateArn d) (ACM.CertificateChain e)
                          (ACM.NotAfter d) key))
          | Raise e => Raise e
          end
      end
  end.
Proof.
  unfold find_latest_cert.
  rewrite run_bind, (reads_run _ w (reads_list _)).
  destruct (fst (acm_list_certificates_pages _ w)) as [ps|e]; simpl; [|reflexivity].
  rewrite run_bind, (reads_run _ w (reads_pages g None ps)).
  destruct (fst (for_each (S:=latest) ps _ None w)) as [[[d key]|]|e]; simpl; [| |reflexivity].
  - rewrite run_bind. simpl. rewrite run_bind.
    rewrite (reads_get_certificate _ w). simpl.
    destruct (fst (acm_get_certificate _ w)); reflexivity.
  - reflexivity.
Qed.

Lemma get_certificate_entry (arn : string) (w : World) (e : ACM.entry) :
  fst (acm_get_certificate arn w) = Ok e ->
  find_entry arn (acm_certificates w) = Some e.
Proof.
  unfold acm_get_certificate, call. rewrite run_bind. simpl.
  destruct (fault w (GetCertificate arn)); [discriminate|].
  rewrite run_bind. simpl.
  destruct (find_entry arn (acm_certificates w)); [|discriminate].
  simpl. congruence.
Qed.

Lemma acm_raise_not_ParameterNotFound {A} (c : api_call) (answer : M A)
    (w : World) (e : exn) :
  (forall e', fst (answer w) = Raise e' -> is_ssm_ParameterNotFound e' = false) ->
  fst (call "acm" c answer w) = Raise e -> is_ssm_ParameterNotFound e = false.
Proof.
  intros Ha. unfold call. rewrite run_bind. simpl.
  destruct (fault w c); [intros [= <-]; reflexivity | apply Ha].
Qed.

(** What [find_latest_cert] returns was kept by its loop; what it raises is
    never the missing-parameter error of SSM. *)
Lemma find_latest_cert_cases (g : Globals) (w : World) :
  match fst (find_latest_cert g w) with
  | Ok None => True
  | Ok (Some cert) =>
      exists e key,
        find_entry (ACM.CertificateArn (ACM.info e)) (acm_certificates w) = Some e
        /\ chosen g w (ACM.info e) key
        /\ cert = record_of e key
  | Raise e => is_ssm_ParameterNotFound e = false
  end.
Proof.
  rewrite find_latest_cert_result.
  destruct (fst (acm_list_certificates_pages _ w)) as [ps|e] eqn:Hl.
  2:{ revert Hl. apply acm_raise_not_ParameterNotFound. discriminate. }
  pose proof (pages_kept g w ps None I) as Hk.
  destruct (fst (for_each (S:=latest) ps _ None w)) as [[[d key]|]|e]; [| exact I | exact Hk].
  destruct (fst (acm_get_certificate _ w)) as [e|e] eqn:Hc.
  - apply get_certificate_entry in Hc.
    destruct (describe_arn _ _ _ (proj1 Hk)) as (_ & e' & He' & Hi).
    assert (e' = e) by congruence. subst e'. subst d.
    exists e, key. auto.
  - revert Hc. apply acm_raise_not_ParameterNotFound.
    intros e'. rewrite run_bind. simpl. destruct (find_entry _ _); [discriminate|].
    intros [= <-]. reflexivity.
Qed.

Lemma selects_chosen (g : Globals) (w : World) (arn : string) :
  selects g w arn = true ->
  exists e key,
    find_entry arn (acm_certificates w) = Some e
    /\ ACM.CertificateArn (ACM.info e) = arn
    /\ chosen g w (ACM.info e) key.
Proof.
  unfold selects. pose proof (find_latest_cert_cases g w) as H.
  destruct (fst (find_latest_cert g w)) as [[cert|]|e]; try discriminate.
  destruct H as (e & key & He & Hk & ->). simpl.
  intros Harn%String.eqb_eq. exists e, key. rewrite <- Harn. auto.
Qed.

(** ** Strings *)

Lemma append_cons (c : ascii) (a b : string) :
  String c a +:+ b = String c (a +:+ b).
Proof. reflexivity. Qed.

Lemma prefix_app (p s : string) :
  String.prefix p s = true <-> exists post, s = p +:+ post.
Proof.
  revert s. induction p as [|c p IH]; intros s.
  - split; [intros _; exists s; reflexivity | intros _; destruct s; reflexivity].
  - destruct s as [|c' s]; simpl.
    + split; [discriminate | intros [post H]; discriminate].
    + destruct (Ascii.ascii_dec c c') as [->|Hc].
      * rewrite IH. split; intros [post H]; exists post;
          rewrite append_cons in *; congruence.
      * split; [discriminate|].
        intros [post H]. rewrite append_cons in H. congruence.
Qed.

Lemma contains_nil (sub : string) :
  PyStr.contains sub EmptyString = String.prefix sub EmptyString || false.
Proof. reflexivity. Qed.

Lemma contains_cons (sub : string) (c : ascii) (s : string) :
  PyStr.contains sub (String c s)
  = String.prefix sub (String c s) || PyStr.contains sub s.
Proof. reflexivity. Qed.

Lemma contains_app (sub s : string) :
  PyStr.contains sub s = true <-> exists pre post, s = pre +:+ sub +:+ post.
Proof.
  induction s as [|c s IH]; [rewrite contains_nil | rewrite contains_cons].
  - rewrite orb_false_r, prefix_app. split.
    + intros [post H]. exists EmptyString, post. exact H.
    + intros (pre & post & H). destruct pre; [exists post; exact H|discriminate].
  - rewrite orb_true_iff, prefix_app, IH. split.
    + intros [[post H]|(pre & post & H)].
      * exists EmptyString, post. exact H.
      * exists (String c pre), post. rewrite append_cons. congruence.
    + intros (pre & post & H). destruct pre as [|c' pre].
      * left. exists post. exact H.
      * right. exists pre, post. rewrite append_cons in H. congruence.
Qed.

Lemma ascii_lower_app (a b : string) :
  PyStr.ascii_lower (a +:+ b) = PyStr.ascii_lower a +:+ PyStr.ascii_lower b.
Proof.
  induction a as [|c a IH]; [reflexivity|].
  rewrite append_cons. simpl. rewrite IH. reflexivity.
Qed.

Lemma ascii_lower_split (s a b : string) :
  PyStr.ascii_lower s = a +:+ b ->
  exists s1 s2,
    s = s1 +:+ s2 /\ PyStr.ascii_lower s1 = a /\ PyStr.ascii_lower s2 = b.
Proof.
  revert s. induction a as [|c a IH]; intros s H.
  - exists EmptyString, s. auto.
  - rewrite append_cons in H. destruct s as [|c' s]; simpl in H; [discriminate|].
    injection H as Hc Hs. destruct (IH s Hs) as (s1 & s2 & -> & H1 & H2).
    exists (String c' s1), s2. simpl. rewrite H1, Hc. auto.
Qed.

(** Where the interpreter lowers an issuer as ASCII text, the issuer carries
    the marker when some stretch of it reads "fake" in a mix of upper and
    lower case. *)
Lemma staging_marker_ascii (w : World) (issuer : string) :
  str_lower w issuer = PyStr.ascii_lower issuer ->
  has_staging_marker w issuer = true <->
  exists pre mid post : string,
    issuer = pre +:+ mid +:+ post /\ PyStr.ascii_lower mid = "fake"%string.
Proof.
  intros Hascii. unfold has_staging_marker. rewrite Hascii, contains_app. split.
  - intros (pre & post & H).
    apply ascii_lower_split in H as (s1 & s23 & -> & H1 & H23).
    apply ascii_lower_split in H23 as (s2 & s3 & -> & H2 & H3).
    exists s1, s2, s3. auto.
  - intros (pre & mid & post & -> & H).
    exists (PyStr.ascii_lower pre), (PyStr.ascii_lower post).
    rewrite !ascii_lower_app, H. reflexivity.
Qed.

(** ** The certificates the Locator cannot select *)

Section Never_selected.

Context (g : Globals) (w : World).

(** C3.  A stored certificate whose alternate names are not, as a set, the
    managed domains is never the one [find_latest_cert] returns, whatever
    its expiry, issuer or import time. *)
Theorem find_latest_cert_skips_other_domains (arn : string) (e : ACM.entry) :
  find_entry arn (acm_certificates w) = Some e ->
  py_set (ACM.SubjectAlternativeNames (ACM.info e)) <> py_set (DOMAINS g) ->
  selects g w arn = false.
Proof.
  intros He Hne. destruct (selects g w arn) eqn:Hsel; [|reflexivity].
  apply selects_chosen in Hsel as (e' & key & He' & _ & Hk).
  assert (e' = e) by congruence. subst e'.
  destruct Hk as (_ & _ & Hset & _). contradiction.
Qed.

(** C4.  A stored certificate for which SSM gives no private key under the
    parameter name derived from its identifier is never the one
    [find_latest_cert] returns. *)
Theorem find_latest_cert_skips_without_key (arn : string) (err : exn) :
  fst (ssm_get_parameter (get_ssm_param_name g arn) w) = Raise err ->
  selects g w arn = false.
Proof.
  intros Herr. destruct (selects g w arn) eqn:Hsel; [|reflexivity].
  apply selects_chosen in Hsel as (e & key & _ & Harn & Hk).
  destruct Hk as (_ & _ & _ & _ & Hkey & _). congruence.
Qed.

(** C5.  A stored certificate is never the one [find_latest_cert] returns
    unless its issuer carries the staging marker exactly when [STAGING] is
    set: in staging mode an issuer without the marker is excluded, in
    production mode one with it is.  The marker is "fake" in the issuer put
    in lower case by the interpreter's [str.lower()], the test of line 73. *)
Theorem find_latest_cert_skips_wrong_issuer (arn : string) (e : ACM.entry) :
  find_entry arn (acm_certificates w) = Some e ->
  has_staging_marker w (ACM.Issuer (ACM.info e)) <> STAGING g ->
  selects g w arn = false.
Proof.
  intros He Hne. destruct (selects g w arn) eqn:Hsel; [|reflexivity].
  apply selects_chosen in Hsel as (e' & key & He' & _ & Hk).
  assert (e' = e) by congruence. subst e'.
  destruct Hk as (_ & _ & _ & Hiss & _).
  exfalso. apply Hne. exact Hiss.
Qed.

End Never_selected.

(** ** The top-level routine *)

Lemma only_printed_stores (w w' : World) :
  only_printed w w' ->
  acm_certificates w' = acm_certificates w
  /\ ssm_parameters w' = ssm_parameters w
  /\ files w' = files w.
Proof. intros [lines ->]. auto. Qed.

Lemma prints_only_printed {A} (c : M A) (w : World) :
  prints c -> only_printed w (snd (c w)).
Proof.
  intros H. destruct (prints_run c w H) as [lines Hl]. exists lines.
  rewrite Hl. reflexivity.
Qed.

Lemma only_printed_trans (w1 w2 w3 : World) :
  only_printed w1 w2 -> only_printed w2 w3 -> only_printed w1 w3.
Proof.
  intros [l1 ->] [l2 ->]. exists (l1 ++ l2). simpl. rewrite app_assoc. reflexivity.
Qed.

Lemma lambda_handler_run (g : Globals) {E C} (event : E) (context : C) (w : World) :
  lambda_handler g event context w =
  match find_latest_cert g w with
  | (Raise e, w1) => (Raise e, w1)
  | (Ok None, w1) => renewal g w1
  | (Ok (Some cert), w1) =>
      match get_days_remaining cert w1 with
      | (Raise e, w2) => (Raise e, w2)
      | (Ok days, w2) =>
          if days <=? 30 then renewal g w2 else (Ok (payload cert), w2)
      end
  end.
Proof.
  unfold lambda_handler, renewal. rewrite run_bind.
  destruct (find_latest_cert g w) as [[[cert|]|e] w1]; [| |reflexivity].
  - rewrite !run_bind.
    destruct (get_days_remaining cert w1) as [[days|e] w2]; [|reflexivity].
    simpl. destruct (days <=? 30).
    + rewrite !run_bind. destruct (provision_cert g w2) as [[cert_data|e] w3];
        [|reflexivity].
      rewrite !run_bind. destruct (import_cert g cert_data w3) as [[c|e] w4];
        reflexivity.
    + reflexivity.
  - rewrite !run_bind. simpl. rewrite !run_bind.
    destruct (provision_cert g w1) as [[cert_data|e] w3]; [|reflexivity].
    rewrite !run_bind. destruct (import_cert g cert_data w3) as [[c|e] w4];
      reflexivity.
Qed.

Lemma get_days_remaining_value (cert : Certificate.t) (w : World) :
  fst (get_days_remaining cert w) = Ok (sub_days (expiry_date cert) (today w)).
Proof.
  unfold get_days_remaining. rewrite run_bind. reflexivity.
Qed.

Lemma get_days_remaining_run (cert : Certificate.t) (w : World) :
  exists w', get_days_remaining cert w
             = (Ok (sub_days (expiry_date cert) (today w)), w')
             /\ only_printed w w'.
Proof.
  exists (snd (get_days_remaining cert w)). split.
  - rewrite <- get_days_remaining_value. destruct (get_days_remaining cert w).
    reflexivity.
  - apply prints_only_printed, prints_get_days_remaining.
Qed.

Lemma load_global_certbot : load_global "certbot" = raise (NameError "certbot").
Proof. vm_compute. reflexivity. Qed.

Lemma provision_cert_result (g : Globals) (w : World) :
  fst (provision_cert g w) = Raise (provision_failure w).
Proof.
  unfold provision_cert, with_TemporaryDirectory, provision_failure.
  destruct (fault w MakeTemporaryDirectory); [reflexivity|].
  reflexivity.
Qed.

Lemma renewal_result (g : Globals) (w : World) :
  fst (renewal g w) = Raise (provision_failure w).
Proof.
  unfold renewal. rewrite run_bind.
  pose proof (provision_cert_result g w) as H.
  destruct (provision_cert g w) as [[cert_data|e] w']; simpl in *; congruence.
Qed.

Lemma provision_failure_printed (w w' : World) :
  only_printed w w' -> provision_failure w' = provision_failure w.
Proof. intros [lines ->]. reflexivity. Qed.

Lemma find_latest_cert_run (g : Globals) (w : World) :
  exists w', find_latest_cert g w = (fst (find_latest_cert g w), w')
             /\ only_printed w w'.
Proof.
  exists (snd (find_latest_cert g w)). split.
  - destruct (find_latest_cert g w). reflexivity.
  - apply prints_only_printed, prints_find_latest_cert.
Qed.

(** The result of [lambda_handler] from the result of the Locator. *)
Lemma lambda_handler_result (g : Globals) {E C} (event : E) (context : C)
    (w : World) :
  fst (lambda_handler g event context w) =
  match fst (find_latest_cert g w) with
  | Raise e => Raise e
  | Ok None => Raise (provision_failure w)
  | Ok (Some cert) =>
      if sub_days (expiry_date cert) (today w) <=? 30
      then Raise (provision_failure w)
      else Ok (payload cert)
  end.
Proof.
  rewrite lambda_handler_run.
  destruct (find_latest_cert_run g w) as (w1 & Hrun & Hw1).
  remember (fst (find_latest_cert g w)) as r eqn:Hr. rewrite Hrun. clear Hrun Hr.
  destruct r as [[cert|]|e]; [| |reflexivity].
  - destruct (get_days_remaining_run cert w1) as (w2 & -> & Hw2).
    assert (Hw : only_printed w w2) by (eapply only_printed_trans; eassumption).
    replace (today w1) with (today w) by (destruct Hw1 as [l ->]; reflexivity).
    destruct (_ <=? 30); [|reflexivity].
    rewrite renewal_result. f_equal. apply provision_failure_printed, Hw.
  - rewrite renewal_result. f_equal. apply provision_failure_printed, Hw1.
Qed.

(** C9.  The name [certbot] is bound nowhere in the module, though
    [subprocess] is; so [provision_cert] ends, once it has its temporary
    directory, in [NameError], and [lambda_handler] never returns from a
    renewal: it returns only a located record with more than 30 days left. *)
Theorem provision_cert_raises_NameError (g : Globals) (w : World) :
  existsb (String.eqb "certbot") (module_globals ++ builtins ++ builtin_exceptions)
  = false
  /\ existsb (String.eqb "subprocess") module_globals = true
  /\ fst (provision_cert g w)
     = match fault w MakeTemporaryDirectory with
       | Some message => Raise (OSError message)
       | None => Raise (NameError "certbot")
       end
  /\ forall {E C} (event : E) (context : C),
       match fst (find_latest_cert g w) with
       | Ok None =>
           fst (lambda_handler g event context w) = fst (provision_cert g w)
       | Ok (Some cert) =>
           if sub_days (expiry_date cert) (today w) <=? 30
           then fst (lambda_handler g event context w) = fst (provision_cert g w)
           else True
       | Raise e => True
       end.
Proof.
  split; [vm_compute; reflexivity|].
  split; [vm_compute; reflexivity|].
  split.
  - rewrite provision_cert_result. unfold provision_failure.
    destruct (fault w MakeTemporaryDirectory); reflexivity.
  - intros E C event context. rewrite lambda_handler_result, provision_cert_result.
    destruct (fst (find_latest_cert g w)) as [[cert|]|e]; try exact I; try reflexivity.
    destruct (_ <=? 30); [reflexivity | exact I].
Qed.

(** C1.  [lambda_handler] does not return the record of a renewal.  Where
    the temporary directory can be made, it ends in [NameError] at the call
    of [certbot] (line 238) both when [find_latest_cert] finds no
    certificate and when the one it finds has at most 30 days left; it
    returns a value only for a certificate with more than 30 days left, the
    texts of that certificate; an exception out of [find_latest_cert] is
    passed on. *)
Theorem lambda_handler_renewal_raises (g : Globals) {E C} (event : E)
    (context : C) (w : World) :
  fault w MakeTemporaryDirectory = None ->
  match fst (find_latest_cert g w) with
  | Ok None =>
      fst (lambda_handler g event context w) = Raise (NameError "certbot")
  | Ok (Some cert) =>
      if sub_days (expiry_date cert) (today w) <=? 30
      then fst (lambda_handler g event context w) = Raise (NameError "certbot")
      else fst (lambda_handler g event context w) = Ok (payload cert)
  | Raise e => fst (lambda_handler g event context w) = Raise e
  end.
Proof.
  intros Hdir. rewrite lambda_handler_result. unfold provision_failure.
  rewrite Hdir.
  destruct (fst (find_latest_cert g w)) as [[cert|]|e]; try reflexivity.
  destruct (_ <=? 30); reflexivity.
Qed.

Lemma lambda_handler_valid_run (g : Globals) {E C} (event : E) (context : C)
    (w : World) (cert : Certificate.t) :
  fst (find_latest_cert g w) = Ok (Some cert) ->
  (sub_days (expiry_date cert) (today w) <=? 30) = false ->
  exists lines, forall out,
    lambda_handler g event context (set_stdout out w)
    = (Ok (payload cert), set_stdout (out ++ lines) w).
Proof.
  intros Hfind Hdays.
  destruct (prints_find_latest_cert g w) as [l1 H1].
  destruct (prints_get_days_remaining cert w) as [l2 H2].
  exists (l1 ++ l2). intros out.
  rewrite lambda_handler_run, H1, Hfind, H2, get_days_remaining_value, Hdays.
  rewrite app_assoc. reflexivity.
Qed.

(** C8.  When the located certificate has more than 30 days left, two
    invocations in a row return the same record, and each leaves the
    inventory and the secret store as it found them: the second call
    renews nothing. *)
Theorem lambda_handler_idempotent (g : Globals) {E C} (event : E) (context : C)
    (w : World) (cert : Certificate.t) :
  fst (find_latest_cert g w) = Ok (Some cert) ->
  30 < sub_days (expiry_date cert) (today w) ->
  exists w1 w2,
    lambda_handler g event context w = (Ok (payload cert), w1)
    /\ lambda_handler g event context w1 = (Ok (payload cert), w2)
    /\ only_printed w w1 /\ only_printed w1 w2
    /\ acm_certificates w2 = acm_certificates w
    /\ ssm_parameters w2 = ssm_parameters w.
Proof.
  intros Hfind Hdays.
  assert (Hle : (sub_days (expiry_date cert) (today w) <=? 30) = false)
    by (apply Z.leb_gt, Hdays).
  destruct (lambda_handler_valid_run g event context w cert Hfind Hle)
    as [lines Hrun].
  exists (set_stdout (stdout w ++ lines) w),
         (set_stdout ((stdout w ++ lines) ++ lines) w).
  repeat split.
  - rewrite <- (Hrun (stdout w)), set_stdout_same. reflexivity.
  - apply Hrun.
  - exists lines. reflexivity.
  - exists lines. reflexivity.
Qed.

(** ** Days remaining *)


Lemma days_before_next_year (y : Z) :
  days_before_year (y + 1) = days_before_year y + 365 + (if is_leap y then 1 else 0).
Proof.
  unfold days_before_year, is_leap.
  replace (y + 1 - 1) with y by lia.
  destruct (Z.eqb_spec (y mod 4) 0), (Z.eqb_spec (y mod 100) 0),
    (Z.eqb_spec (y mod 400) 0); simpl;
    Z.to_euclidean_division_equations; lia.
Qed.

Lemma month_cases (m : Z) :
  1 <= m <= 12 ->
  m = 1 \/ m = 2 \/ m = 3 \/ m = 4 \/ m = 5 \/ m = 6 \/ m = 7 \/ m = 8 \/
  m = 9 \/ m = 10 \/ m = 11 \/ m = 12.
Proof. lia. Qed.

Lemma next_day_ordinal (d : date) :
  valid_date d ->
  toordinal (next_day d) = toordinal d + 1 /\ valid_date (next_day d).
Proof.
  destruct d as [y m dd]. unfold valid_date, next_day, toordinal, ymd2ord. simpl.
  intros [Hm Hd].
  pose proof (days_before_next_year y) as Hy.
  destruct (is_leap y) eqn:Hleap;
  destruct (month_cases m Hm) as [->|[->|[->|[->|[->|[->|[->|[->|[->|[->|[->| ->]]]]]]]]]]];
    unfold days_in_month, days_before_month, table in *; rewrite ?Hleap in *;
    simpl in *;
    match goal with |- context [dd <? ?k] => destruct (Z.ltb_spec dd k) end;
    simpl; unfold days_in_month, days_before_month, table; rewrite ?Hleap;
    simpl; repeat split; lia.
Qed.

Lemma add_days_ordinal (n : nat) (d : date) :
  valid_date d ->
  toordinal (add_days n d) = toordinal d + Z.of_nat n /\ valid_date (add_days n d).
Proof.
  intros Hd. induction n as [|n [IHo IHv]]; simpl.
  - split; [lia | assumption].
  - destruct (next_day_ordinal _ IHv) as [Ho Hv]. split; [lia | assumption].
Qed.

(** C6.  [get_days_remaining] is the difference in whole days between the
    calendar dates of [NotAfter] and of today, whatever the time of day.
    For the located record: expiring 31 days from today it has 31 days left
    and is returned as it is; expiring 30 days from today it has 30 and is
    renewed; expired yesterday it has -1 and is renewed. *)
Theorem get_days_remaining_calendar (g : Globals) {E C} (event : E) (context : C)
    (w : World) (cert : Certificate.t) :
  valid_date (today w) ->
  fst (find_latest_cert g w) = Ok (Some cert) ->
  let days := fst (get_days_remaining cert w) in
  let handled := fst (lambda_handler g event context w) in
  days = Ok (toordinal (expiry_date cert) - toordinal (today w))
  /\ (expiry_date cert = add_days 31 (today w) ->
      days = Ok 31 /\ handled = Ok (payload cert))
  /\ (expiry_date cert = add_days 30 (today w) ->
      days = Ok 30 /\ handled = fst (renewal g w))
  /\ (valid_date (expiry_date cert) -> today w = next_day (expiry_date cert) ->
      days = Ok (-1) /\ handled = fst (renewal g w)).
Proof.
  intros Htoday Hfind days handled. subst days handled.
  rewrite get_days_remaining_value, lambda_handler_result, Hfind, renewal_result.
  unfold sub_days. split; [reflexivity|].
  split; [|split].
  - intros ->. destruct (add_days_ordinal 31 _ Htoday) as [-> _].
    replace (_ - _) with 31 by lia. auto.
  - intros ->. destruct (add_days_ordinal 30 _ Htoday) as [-> _].
    replace (_ - _) with 30 by lia. auto.
  - intros Hexp ->. destruct (next_day_ordinal _ Hexp) as [-> _].
    replace (_ - _) with (-1) by lia. auto.
Qed.

(** ** Worlds the Locator cannot tell apart *)

Lemma step_ext (g : Globals) (w w' : World) (st : latest) (s : ACM.summary) :
  str_lower w' = str_lower w ->
  fst (acm_describe_certificate (ACM.summary_CertificateArn s) w')
  = fst (acm_describe_certificate (ACM.summary_CertificateArn s) w) ->
  usable_key g w' (ACM.summary_CertificateArn s)
  = usable_key g w (ACM.summary_CertificateArn s) ->
  fst (find_latest_cert_step g st s w') = fst (find_latest_cert_step g st s w).
Proof.
  intros Hl Hd Hk. unfold find_latest_cert_step.
  destruct (negb (String.eqb _ _)); [reflexivity|].
  rewrite !run_bind, (reads_run _ w (reads_describe _)),
    (reads_run _ w' (reads_describe _)), Hd.
  destruct (fst (acm_describe_certificate _ w)) as [d|e]; [|reflexivity].
  destruct (ACM.ImportedAt d) as [t|]; [|reflexivity].
  rewrite !run_bind.
  assert (Htail : forall st0 : latest,
    fst ((if negb (bool_decide
                 (py_set (ACM.SubjectAlternativeNames d) = py_set (DOMAINS g)))
          then mret st0
          else lower (ACM.Issuer d)
               ≫= (fun issuer : string =>
                    if negb (Bool.eqb (PyStr.contains "fake" issuer) (STAGING g))
                    then mret st0
                    else get_private_key g (ACM.summary_CertificateArn s)
                         ≫= (fun private_key : option string =>
                              match private_key with
                              | Some private_key0 =>
                                  if negb (PyStr.truthy private_key0)
                                  then mret st0
                                  else mret (Some (d, private_key0))
                              | None => mret st0
                              end))) w')
    = fst ((if negb (bool_decide
                 (py_set (ACM.SubjectAlternativeNames d) = py_set (DOMAINS g)))
          then mret st0
          else lower (ACM.Issuer d)
               ≫= (fun issuer : string =>
                    if negb (Bool.eqb (PyStr.contains "fake" issuer) (STAGING g))
                    then mret st0
                    else get_private_key g (ACM.summary_CertificateArn s)
                         ≫= (fun private_key : option string =>
                              match private_key with
                              | Some private_key0 =>
                                  if negb (PyStr.truthy private_key0)
                                  then mret st0
                                  else mret (Some (d, private_key0))
                              | None => mret st0
                              end))) w)).
  { intros st0.
    destruct (negb (bool_decide _)); [reflexivity|].
    rewrite !run_bind, !lower_run, Hl. simpl.
    destruct (negb (Bool.eqb _ _)); [reflexivity|].
    rewrite !run_bind, (reads_run _ w (reads_get_private_key _ _)),
      (reads_run _ w' (reads_get_private_key _ _)).
    revert Hk. unfold usable_key.
    destruct (fst (get_private_key g _ w)) as [[k|]|e],
             (fst (get_private_key g _ w')) as [[k'|]|e']; simpl;
      try destruct (PyStr.truthy k); try destruct (PyStr.truthy k'); simpl;
      congruence. }
  destruct st as [[d0 k0]|]; simpl.
  - destruct (ACM.ImportedAt d0); [|reflexivity]. simpl.
    destruct (datetime_le t _); [reflexivity | apply Htail].
  - apply Htail.
Qed.

Lemma for_each_ext {A S} (xs : list A) (body : S -> A -> M S) (s : S)
    (w w' : World) :
  (forall s x, reads (body s x)) ->
  (forall s x, In x xs -> fst (body s x w') = fst (body s x w)) ->
  fst (for_each xs body s w') = fst (for_each xs body s w).
Proof.
  intros Hr. revert s. induction xs as [|x xs IH]; intros s Hx; [reflexivity|].
  simpl. rewrite !run_bind, (reads_run _ w (Hr s x)), (reads_run _ w' (Hr s x)).
  rewrite (Hx s x (or_introl eq_refl)).
  destruct (fst (body s x w)); [|reflexivity].
  apply IH. intros s' y Hy. apply Hx. right. exact Hy.
Qed.

(** [find_latest_cert] gives the same result in two worlds that show the
    same inventory and the same usable keys to the same interpreter. *)
Lemma find_latest_cert_ext (g : Globals) (w w' : World) :
  acm_certificates w' = acm_certificates w ->
  acm_page_size w' = acm_page_size w ->
  fault w' = fault w ->
  str_lower w' = str_lower w ->
  (forall arn, usable_key g w' arn = usable_key g w arn) ->
  fst (find_latest_cert g w') = fst (find_latest_cert g w).
Proof.
  intros Hc Hp Hf Hlow Hk.
  assert (Hd : forall arn, fst (acm_describe_certificate arn w')
                           = fst (acm_describe_certificate arn w)).
  { intros arn. unfold acm_describe_certificate, call.
    rewrite !run_bind. simpl. rewrite Hf. destruct (fault w _); [reflexivity|].
    rewrite !run_bind. simpl. rewrite Hc.
    destruct (find_entry arn _); reflexivity. }
  assert (Hg : forall arn, fst (acm_get_certificate arn w')
                           = fst (acm_get_certificate arn w)).
  { intros arn. unfold acm_get_certificate, call.
    rewrite !run_bind. simpl. rewrite Hf. destruct (fault w _); [reflexivity|].
    rewrite !run_bind. simpl. rewrite Hc.
    destruct (find_entry arn _); reflexivity. }
  assert (Hl : fst (acm_list_certificates_pages ["ISSUED"%string] w')
               = fst (acm_list_certificates_pages ["ISSUED"%string] w)).
  { unfold acm_list_certificates_pages, call.
    rewrite !run_bind. simpl. rewrite Hf. destruct (fault w _); [reflexivity|].
    rewrite !run_bind. simpl. rewrite Hc, Hp. reflexivity. }
  rewrite !find_latest_cert_result, Hl.
  destruct (fst (acm_list_certificates_pages _ w)) as [ps|e]; [|reflexivity].
  assert (Hloop :
    fst (for_each ps (fun st page => for_each page (find_latest_cert_step g) st)
           (None : latest) w')
    = fst (for_each ps (fun st page => for_each page (find_latest_cert_step g) st)
           (None : latest) w)).
  { apply for_each_ext; [intros; apply reads_page|].
    intros st page _. apply for_each_ext; [intros; apply reads_step|].
    intros st' s _. apply step_ext; [exact Hlow | apply Hd | apply Hk]. }
  rewrite Hloop.
  destruct (fst (for_each ps _ (None : latest) w)) as [[[d key]|]|e];
    try reflexivity.
  rewrite Hg. reflexivity.
Qed.

Lemma get_private_key_value (g : Globals) (arn : string) (w : World) :
  fst (get_private_key g arn w) =
  match fault w (GetParameter (get_ssm_param_name g arn)) with
  | Some code =>
      if String.eqb code "ParameterNotFound" then Ok None
      else Raise (ClientError "ssm" code)
  | None => Ok (ssm_parameters w !! get_ssm_param_name g arn)
  end.
Proof.
  unfold get_private_key, try_except_else, ssm_get_parameter, call.
  rewrite run_bind. simpl.
  destruct (fault w _) as [code|]; simpl.
  - destruct (String.eqb code "ParameterNotFound"); reflexivity.
  - rewrite run_bind. simpl.
    destruct (ssm_parameters w !! _); reflexivity.
Qed.

Lemma usable_key_without_empty (g : Globals) (w : World) (name : string) (arn : string) :
  ssm_parameters w !! name = Some EmptyString ->
  usable_key g (without_parameter name w) arn = usable_key g w arn.
Proof.
  intros Hn. unfold usable_key. rewrite !get_private_key_value. simpl.
  destruct (fault w _) as [code|]; [reflexivity|].
  destruct (decide (name = get_ssm_param_name g arn)) as [<-|Hne].
  - rewrite lookup_delete_eq, Hn. reflexivity.
  - rewrite lookup_delete_ne by exact Hne. reflexivity.
Qed.

(** C10.  A certificate whose parameter in SSM holds the empty string is
    excluded exactly as if the parameter were not there: the lookup
    succeeds, the certificate is never selected, and [find_latest_cert]
    returns what it returns in the world without that parameter. *)
Theorem find_latest_cert_empty_key_as_absent (g : Globals) (w : World)
    (arn : string) :
  fst (ssm_get_parameter (get_ssm_param_name g arn) w) = Ok EmptyString ->
  fst (get_private_key g arn w) = Ok (Some EmptyString)
  /\ fst (get_private_key g arn (without_parameter (get_ssm_param_name g arn) w))
     = Ok None
  /\ selects g w arn = false
  /\ fst (find_latest_cert g w)
     = fst (find_latest_cert g (without_parameter (get_ssm_param_name g arn) w)).
Proof.
  intros Hget.
  assert (Hf : fault w (GetParameter (get_ssm_param_name g arn)) = None
               /\ ssm_parameters w !! get_ssm_param_name g arn = Some EmptyString).
  { revert Hget. unfold ssm_get_parameter, call. rewrite run_bind. simpl.
    destruct (fault w _); [discriminate|]. rewrite run_bind. simpl.
    destruct (ssm_parameters w !! _); [|discriminate].
    simpl. intros [= ->]. auto. }
  destruct Hf as [Hf Hp].
  split; [|split; [|split]].
  - rewrite get_private_key_value, Hf, Hp. reflexivity.
  - rewrite get_private_key_value. simpl. rewrite Hf, lookup_delete_eq. reflexivity.
  - destruct (selects g w arn) eqn:Hsel; [|reflexivity].
    apply selects_chosen in Hsel as (e & key & _ & Harn & Hk).
    destruct Hk as (_ & _ & _ & _ & Hkey & Htrue).
    rewrite Harn, Hget in Hkey. injection Hkey as <-. discriminate.
  - symmetry. apply find_latest_cert_ext; try reflexivity.
    intros arn'. apply usable_key_without_empty, Hp.
Qed.

(** ** Errors of the stores *)

Lemma for_each_app {A S} (xs ys : list A) (body : S -> A -> M S) (s : S)
    (w : World) :
  for_each (xs ++ ys) body s w
  = (for_each xs body s ≫= for_each ys body) w.
Proof.
  revert s w. induction xs as [|x xs IH]; intros s w; [reflexivity|].
  simpl. rewrite !run_bind. destruct (body s x w) as [[s'|e] w']; [|reflexivity].
  rewrite IH, run_bind. reflexivity.
Qed.

Lemma for_each_concat {A S} (ps : list (list A)) (body : S -> A -> M S) (s : S)
    (w : World) :
  for_each ps (fun s page => for_each page body s) s w
  = for_each (concat ps) body s w.
Proof.
  revert s w. induction ps as [|p ps IH]; intros s w; [reflexivity|].
  simpl. rewrite for_each_app, !run_bind.
  destruct (for_each p body s w) as [[s'|e] w']; [apply IH | reflexivity].
Qed.

Lemma for_each_first_raise {A S} (xs1 xs2 : list A) (x : A)
    (body : S -> A -> M S) (s s1 : S) (e : exn) (w : World) :
  (forall s x, reads (body s x)) ->
  fst (for_each xs1 body s w) = Ok s1 ->
  fst (body s1 x w) = Raise e ->
  fst (for_each (xs1 ++ x :: xs2) body s w) = Raise e.
Proof.
  intros Hr H1 Hx. rewrite for_each_app, run_bind.
  rewrite (reads_run _ w (reads_for_each xs1 body s Hr)), H1. simpl.
  rewrite run_bind, (reads_run _ w (Hr s1 x)), Hx. reflexivity.
Qed.

Lemma step_describe_error (g : Globals) (w : World) (st : latest)
    (s : ACM.summary) (e : exn) :
  ACM.summary_DomainName s = SUBJECT g ->
  fst (acm_describe_certificate (ACM.summary_CertificateArn s) w) = Raise e ->
  fst (find_latest_cert_step g st s w) = Raise e.
Proof.
  intros Hs Hd. unfold find_latest_cert_step.
  rewrite Hs, String.eqb_refl. simpl.
  rewrite run_bind, (reads_run _ w (reads_describe _)), Hd. reflexivity.
Qed.

Lemma step_key_error (g : Globals) (w : World) (st : latest)
    (s : ACM.summary) (e : exn) :
  looks_up_key g w st s ->
  fst (ssm_get_parameter (get_ssm_param_name g (ACM.summary_CertificateArn s)) w)
  = Raise e ->
  fst (find_latest_cert_step g st s w)
  = if is_ssm_ParameterNotFound e then Ok st else Raise e.
Proof.
  intros (d & t & Hs & Hd & Ht & Hst & Hset & Hiss) He.
  unfold find_latest_cert_step.
  rewrite Hs, String.eqb_refl. simpl.
  rewrite run_bind, (reads_run _ w (reads_describe _)), Hd. simpl.
  rewrite Ht, run_bind.
  assert (Hnew :
    (match st with
     | Some (latest_cert_info, _) =>
         match ACM.ImportedAt latest_cert_info with
         | Some latest_imported_at => mret (datetime_le t latest_imported_at)
         | None => raise (KeyError "ImportedAt")
         end
     | None => mret false
     end : M bool) w = (Ok false, w)).
  { destruct st as [[d0 k0]|]; [|reflexivity].
    destruct Hst as (t0 & -> & ->). reflexivity. }
  rewrite Hnew. simpl.
  rewrite Hset, bool_decide_eq_true_2 by reflexivity. simpl.
  rewrite run_bind, lower_run. simpl.
  rewrite Hiss, Bool.eqb_reflx. simpl.
  rewrite run_bind, (reads_run _ w (reads_get_private_key _ _)).
  pose proof (get_private_key_cases g (ACM.summary_CertificateArn s) w) as Hk.
  rewrite He in Hk. destruct (is_ssm_ParameterNotFound e); rewrite Hk; reflexivity.
Qed.

Lemma find_latest_cert_raise (g : Globals) (w : World) (e : exn) :
  fst (find_latest_cert g w) = Raise e -> is_ssm_ParameterNotFound e = false.
Proof.
  intros H. pose proof (find_latest_cert_cases g w) as Hc.
  rewrite H in Hc. exact Hc.
Qed.

(** C7.  In [get_private_key] the missing-parameter error of SSM becomes
    [None] and any other error is raised on; in the loop of
    [find_latest_cert] a certificate whose key is missing is skipped, while
    any other error of a lookup or of [describe_certificate] ends the step;
    an error of the listing, of a step or of [get_certificate] ends
    [find_latest_cert], which never raises the missing-parameter error; and
    what [find_latest_cert] raises, [lambda_handler] raises. *)
Theorem key_not_found_recovered_other_errors_abort (g : Globals) {E C}
    (event : E) (context : C) (w : World) :
  (forall arn,
     match fst (ssm_get_parameter (get_ssm_param_name g arn) w) with
     | Ok value => get_private_key g arn w = (Ok (Some value), w)
     | Raise e =>
         if is_ssm_ParameterNotFound e
         then get_private_key g arn w = (Ok None, w)
         else get_private_key g arn w = (Raise e, w)
     end)
  /\ (forall st s e,
        looks_up_key g w st s ->
        fst (ssm_get_parameter
               (get_ssm_param_name g (ACM.summary_CertificateArn s)) w) = Raise e ->
        find_latest_cert_step g st s w
        = (if is_ssm_ParameterNotFound e then Ok st else Raise e, w))
  /\ (forall st s e,
        ACM.summary_DomainName s = SUBJECT g ->
        fst (acm_describe_certificate (ACM.summary_CertificateArn s) w) = Raise e ->
        find_latest_cert_step g st s w = (Raise e, w))
  /\ (forall e,
        fst (acm_list_certificates_pages ["ISSUED"%string] w) = Raise e ->
        fst (find_latest_cert g w) = Raise e)
  /\ (forall ps before s after st e,
        fst (acm_list_certificates_pages ["ISSUED"%string] w) = Ok ps ->
        concat ps = before ++ s :: after ->
        fst (for_each before (find_latest_cert_step g) None w) = Ok st ->
        fst (find_latest_cert_step g st s w) = Raise e ->
        fst (find_latest_cert g w) = Raise e)
  /\ (forall ps d key e,
        fst (acm_list_certificates_pages ["ISSUED"%string] w) = Ok ps ->
        fst (for_each (concat ps) (find_latest_cert_step g) None w)
        = Ok (Some (d, key)) ->
        fst (acm_get_certificate (ACM.CertificateArn d) w) = Raise e ->
        fst (find_latest_cert g w) = Raise e)
  /\ (forall e,
        fst (find_latest_cert g w) = Raise e ->
        is_ssm_ParameterNotFound e = false
        /\ fst (lambda_handler g event context w) = Raise e).
Proof.
  split; [|split; [|split; [|split; [|split; [|split]]]]].
  - intros arn. pose proof (get_private_key_cases g arn w) as H.
    rewrite (reads_run _ w (reads_get_private_key g arn)).
    destruct (fst (ssm_get_parameter _ w)) as [v|e]; [rewrite H; reflexivity|].
    destruct (is_ssm_ParameterNotFound e); rewrite H; reflexivity.
  - intros st s e Hl He.
    rewrite (reads_run _ w (reads_step g st s)), (step_key_error g w st s e Hl He).
    reflexivity.
  - intros st s e Hs Hd.
    rewrite (reads_run _ w (reads_step g st s)), (step_describe_error g w st s e Hs Hd).
    reflexivity.
  - intros e H. rewrite find_latest_cert_result, H. reflexivity.
  - intros ps before s after st e Hl Hc Hb Hs.
    rewrite find_latest_cert_result, Hl, for_each_concat, Hc.
    rewrite (for_each_first_raise (S:=latest) before after s
               (find_latest_cert_step g) None st e w (reads_step g) Hb Hs).
    reflexivity.
  - intros ps d key e Hl Hloop Hg.
    rewrite find_latest_cert_result, Hl, for_each_concat, Hloop, Hg. reflexivity.
  - intros e H. split; [exact (find_latest_cert_raise g w e H)|].
    rewrite lambda_handler_result, H. reflexivity.
Qed.

(** ** The latest eligible certificate *)

Lemma tuple_le_refl (a : list Z) : tuple_le a a = true.
Proof.
  induction a as [|x a IH]; [reflexivity|]. simpl.
  rewrite Z.eqb_refl, IH. apply orb_true_r.
Qed.

Lemma tuple_le_total (a b : list Z) :
  length a = length b -> tuple_le a b = false -> tuple_le b a = true.
Proof.
  revert b. induction a as [|x a IH]; intros [|y b] Hlen; simpl; try discriminate.
  injection Hlen as Hlen. intros H.
  destruct (Z.ltb_spec x y), (Z.ltb_spec y x), (Z.eqb_spec x y), (Z.eqb_spec y x);
    simpl in *; try reflexivity; try discriminate; try lia.
  apply IH; assumption.
Qed.

Lemma tuple_le_trans (a b c : list Z) :
  tuple_le a b = true -> tuple_le b c = true -> tuple_le a c = true.
Proof.
  revert b c. induction a as [|x a IH]; intros [|y b] [|z c]; simpl;
    try reflexivity; try discriminate.
  destruct (Z.ltb_spec x y), (Z.ltb_spec y z), (Z.ltb_spec x z),
    (Z.eqb_spec x y), (Z.eqb_spec y z), (Z.eqb_spec x z);
    simpl; try reflexivity; try discriminate; try lia.
  apply IH.
Qed.

Lemma datetime_le_refl (t : datetime) : datetime_le t t = true.
Proof. apply tuple_le_refl. Qed.

Lemma datetime_le_total (a b : datetime) :
  datetime_le a b = false -> datetime_le b a = true.
Proof. apply tuple_le_total. reflexivity. Qed.

Lemma datetime_le_trans (a b c : datetime) :
  datetime_le a b = true -> datetime_le b c = true -> datetime_le a c = true.
Proof. apply tuple_le_trans. Qed.

Lemma concat_pages_from {A} (size : nat) (page : list A) (room : nat) (l : list A) :
  concat (pages_from size page room l) = rev page ++ l.
Proof.
  revert page room. induction l as [|x l IH]; intros page room; simpl.
  - destruct page; simpl; rewrite ?app_nil_r; reflexivity.
  - destruct room; simpl; rewrite IH; simpl; rewrite <- ?app_assoc; reflexivity.
Qed.

Lemma concat_pages {A} (size : nat) (l : list A) : concat (pages size l) = l.
Proof.
  destruct l as [|x l]; [reflexivity|]. unfold pages.
  apply (concat_pages_from size [] size (x :: l)).
Qed.

Lemma find_entry_unique (certs : list ACM.entry) (e : ACM.entry) :
  NoDup (map (fun e => ACM.CertificateArn (ACM.info e)) certs) ->
  In e certs ->
  find_entry (ACM.CertificateArn (ACM.info e)) certs = Some e.
Proof.
  induction certs as [|c certs IH]; simpl; [contradiction|].
  intros Hnd [->|Hin].
  - rewrite String.eqb_refl. reflexivity.
  - apply NoDup_cons in Hnd as [Hnotin Hnd].
    destruct (String.eqb_spec (ACM.CertificateArn (ACM.info c))
                (ACM.CertificateArn (ACM.info e))) as [Heq|Hne].
    + exfalso. apply Hnotin. rewrite Heq. apply list_elem_of_In.
      apply (in_map (fun e => ACM.CertificateArn (ACM.info e))), Hin.
    + apply IH; assumption.
Qed.

Lemma pick_not_eligible (g : Globals) (w : World) (st : latest) (e : ACM.entry) :
  eligible g w e = false -> pick g w st e = st.
Proof. intros H. unfold pick. rewrite H. destruct (stored_key _ _ _); reflexivity. Qed.

Lemma pick_not_newer (g : Globals) (w : World) (st : latest) (e : ACM.entry) :
  newer st e = false -> pick g w st e = st.
Proof.
  intros H. unfold pick. rewrite H, andb_false_r.
  destruct (stored_key _ _ _); reflexivity.
Qed.

Lemma describe_found (w : World) (e : ACM.entry) :
  no_faults w ->
  find_entry (ACM.CertificateArn (ACM.info e)) (acm_certificates w) = Some e ->
  fst (acm_describe_certificate (ACM.CertificateArn (ACM.info e)) w)
  = Ok (ACM.info e).
Proof.
  intros Hf He. unfold acm_describe_certificate, call.
  rewrite run_bind. simpl. rewrite Hf, run_bind. simpl. rewrite He. reflexivity.
Qed.

Lemma get_certificate_found (w : World) (e : ACM.entry) :
  no_faults w ->
  find_entry (ACM.CertificateArn (ACM.info e)) (acm_certificates w) = Some e ->
  fst (acm_get_certificate (ACM.CertificateArn (ACM.info e)) w) = Ok e.
Proof.
  intros Hf He. unfold acm_get_certificate, call.
  rewrite run_bind. simpl. rewrite Hf, run_bind. simpl. rewrite He. reflexivity.
Qed.

(** With no failing call, a turn of the loop is [pick]. *)
Lemma step_pick (g : Globals) (w : World) (st : latest) (e : ACM.entry) :
  no_faults w ->
  find_entry (ACM.CertificateArn (ACM.info e)) (acm_certificates w) = Some e ->
  has_status ["ISSUED"%string] e = true ->
  match st with
  | Some (d0, _) => is_Some (ACM.ImportedAt d0)
  | None => True
  end ->
  fst (find_latest_cert_step g st (ACM.summary_of e) w) = Ok (pick g w st e).
Proof.
  intros Hf He Hissued Hst. unfold find_latest_cert_step. simpl.
  destruct (String.eqb (ACM.DomainName (ACM.info e)) (SUBJECT g)) eqn:Hdom; simpl.
  2:{ rewrite pick_not_eligible; [reflexivity|].
      unfold eligible, listed. rewrite Hdom, andb_false_r. reflexivity. }
  rewrite run_bind, (reads_run _ w (reads_describe _)), (describe_found w e Hf He).
  simpl.
  destruct (ACM.ImportedAt (ACM.info e)) as [t|] eqn:Ht.
  2:{ rewrite pick_not_eligible; [reflexivity|].
      unfold eligible. rewrite Ht.
      rewrite (bool_decide_eq_false_2 (is_Some None)) by (intros [? ?]; discriminate).
      rewrite andb_false_r. reflexivity. }
  rewrite run_bind.
  assert (Hold :
    (match st with
     | Some (latest_cert_info, _) =>
         match ACM.ImportedAt latest_cert_info with
         | Some latest_imported_at => mret (datetime_le t latest_imported_at)
         | None => raise (KeyError "ImportedAt")
         end
     | None => mret false
     end : M bool) w = (Ok (negb (newer st e)), w)).
  { unfold newer. rewrite Ht. destruct st as [[d0 k0]|]; [|reflexivity].
    destruct Hst as [t0 ->]. rewrite negb_involutive. reflexivity. }
  rewrite Hold. simpl.
  destruct (newer st e) eqn:Hnew; simpl.
  2:{ rewrite pick_not_newer by exact Hnew. reflexivity. }
  destruct (bool_decide (py_set (ACM.SubjectAlternativeNames (ACM.info e))
                         = py_set (DOMAINS g))) eqn:Hset; simpl.
  2:{ rewrite pick_not_eligible; [reflexivity|].
      unfold eligible. rewrite Hset, andb_false_r. reflexivity. }
  rewrite run_bind, lower_run. simpl.
  destruct (Bool.eqb (PyStr.contains "fake" (str_lower w (ACM.Issuer (ACM.info e))))
              (STAGING g)) eqn:Hiss; simpl.
  2:{ rewrite pick_not_eligible; [reflexivity|].
      unfold eligible. rewrite Hiss, andb_false_r. reflexivity. }
  rewrite run_bind, (reads_run _ w (reads_get_private_key _ _)).
  rewrite get_private_key_value, Hf. simpl.
  unfold pick, eligible, listed, stored_key.
  rewrite Hissued, Hdom, Ht, Hset, Hiss, Hnew.
  rewrite (bool_decide_eq_true_2 (is_Some (Some t))) by eauto. simpl.
  destruct (ssm_parameters w !! _) as [key|]; [|reflexivity].
  destruct (PyStr.truthy key); reflexivity.
Qed.

Lemma eligible_imported (g : Globals) (w : World) (e : ACM.entry) :
  eligible g w e = true -> is_Some (ACM.ImportedAt (ACM.info e)).
Proof.
  unfold eligible. rewrite !andb_true_iff.
  intros [[[[_ H] _] _] _]. apply bool_decide_eq_true_1 in H. exact H.
Qed.

Lemma eligible_listed (g : Globals) (w : World) (e : ACM.entry) :
  eligible g w e = true -> has_status ["ISSUED"%string] e = true.
Proof.
  unfold eligible, listed. rewrite !andb_true_iff. tauto.
Qed.

Lemma imported_le_refl (g : Globals) (w : World) (e : ACM.entry) :
  eligible g w e = true -> imported_le e e = true.
Proof.
  intros [t Ht]%eligible_imported. unfold imported_le. rewrite Ht.
  apply datetime_le_refl.
Qed.

Lemma pick_wf (g : Globals) (w : World) (st : latest) (e : ACM.entry) :
  match st with
  | Some (d0, _) => is_Some (ACM.ImportedAt d0)
  | None => True
  end ->
  match pick g w st e with
  | Some (d0, _) => is_Some (ACM.ImportedAt d0)
  | None => True
  end.
Proof.
  intros Hst. unfold pick. destruct (stored_key _ _ _); [|exact Hst].
  destruct (eligible g w e) eqn:He; [|exact Hst].
  destruct (newer st e); [|exact Hst]. simpl.
  apply (eligible_imported g w e He).
Qed.

Lemma pick_best (g : Globals) (w : World) (es : list ACM.entry) (st : latest)
    (e : ACM.entry) :
  best g w es st -> best g w (es ++ [e]) (pick g w st e).
Proof.
  intros Hbest.
  destruct (eligible g w e) eqn:Hel.
  - pose proof (eligible_imported g w e Hel) as [t Ht].
    assert (Hkey : exists key,
              stored_key g w (ACM.CertificateArn (ACM.info e)) = Some key).
    { revert Hel. unfold eligible. rewrite !andb_true_iff.
      intros [_ H]. apply bool_decide_eq_true_1 in H. destruct H as [k Hk]. eauto. }
    destruct Hkey as [key Hkey]. unfold pick. rewrite Hkey, Hel. simpl.
    destruct st as [[d0 k0]|]; simpl.
    + destruct Hbest as (e0 & Hin0 & Hd0 & Hel0 & Hk0 & Hmax).
      pose proof (eligible_imported g w e0 Hel0) as [t0 Ht0].
      rewrite Ht. subst d0. rewrite Ht0.
      destruct (datetime_le t t0) eqn:Hle; simpl.
      * exists e0. repeat split; try assumption.
        { apply in_or_app. left. exact Hin0. }
        intros e' [Hin'|[<-|[]]]%in_app_or Hel'; [apply Hmax; assumption|].
        unfold imported_le. rewrite Ht, Ht0. exact Hle.
      * exists e. repeat split; try assumption.
        { apply in_or_app. right. left. reflexivity. }
        intros e' [Hin'|[<-|[]]]%in_app_or Hel';
          [|apply (imported_le_refl g w); exact Hel'].
        specialize (Hmax e' Hin' Hel'). revert Hmax. unfold imported_le.
        rewrite Ht, Ht0. destruct (ACM.ImportedAt (ACM.info e')); [|discriminate].
        intros H. eapply datetime_le_trans; [exact H|].
        apply datetime_le_total, Hle.
    + exists e. repeat split; try assumption.
      { apply in_or_app. right. left. reflexivity. }
      intros e' [Hin'|[<-|[]]]%in_app_or Hel';
        [|apply (imported_le_refl g w); exact Hel'].
      rewrite (Hbest e' Hin') in Hel'. discriminate.
  - rewrite pick_not_eligible by exact Hel.
    destruct st as [[d0 k0]|]; simpl in *.
    + destruct Hbest as (e0 & Hin0 & Hd0 & Hel0 & Hk0 & Hmax).
      exists e0. repeat split; try assumption.
      { apply in_or_app. left. exact Hin0. }
      intros e' [Hin'|[<-|[]]]%in_app_or Hel'; [apply Hmax; assumption|].
      congruence.
    + intros e' [Hin'|[<-|[]]]%in_app_or; [apply Hbest; assumption | exact Hel].
Qed.

Lemma fold_pick_best (g : Globals) (w : World) (es done : list ACM.entry)
    (st : latest) :
  best g w done st -> best g w (done ++ es) (fold_left (pick g w) es st).
Proof.
  revert done st. induction es as [|e es IH]; intros done st Hbest; simpl.
  - rewrite app_nil_r. exact Hbest.
  - replace (done ++ e :: es) with ((done ++ [e]) ++ es)
      by (rewrite <- app_assoc; reflexivity).
    apply IH, pick_best, Hbest.
Qed.

Lemma loop_pick (g : Globals) (w : World) (es : list ACM.entry) (st : latest) :
  no_faults w ->
  (forall e, In e es ->
     find_entry (ACM.CertificateArn (ACM.info e)) (acm_certificates w) = Some e
     /\ has_status ["ISSUED"%string] e = true) ->
  match st with
  | Some (d0, _) => is_Some (ACM.ImportedAt d0)
  | None => True
  end ->
  fst (for_each (map ACM.summary_of es) (find_latest_cert_step g) st w)
  = Ok (fold_left (pick g w) es st).
Proof.
  intros Hf. revert st. induction es as [|e es IH]; intros st Hes Hst;
    [reflexivity|].
  simpl. rewrite run_bind, (reads_run _ w (reads_step g st _)).
  destruct (Hes e (or_introl eq_refl)) as [He Hi].
  rewrite (step_pick g w st e Hf He Hi Hst). simpl.
  apply IH; [intros e' He'; apply Hes; right; exact He' | apply pick_wf, Hst].
Qed.

(** [eligible] in the words of the specification. *)
Lemma eligible_spec (g : Globals) (w : World) (e : ACM.entry) :
  eligible g w e = true <->
  listed g e = true
  /\ is_Some (ACM.ImportedAt (ACM.info e))
  /\ py_set (ACM.SubjectAlternativeNames (ACM.info e)) = py_set (DOMAINS g)
  /\ (has_staging_marker w (ACM.Issuer (ACM.info e)) = true <-> STAGING g = true)
  /\ exists key,
       ssm_parameters w !! get_ssm_param_name g (ACM.CertificateArn (ACM.info e))
       = Some key /\ key <> EmptyString.
Proof.
  unfold eligible. rewrite !andb_true_iff, !bool_decide_eq_true.
  unfold has_staging_marker.
  assert (Hiss : forall a b : bool, Bool.eqb a b = true <-> (a = true <-> b = true)).
  { intros [] []; simpl; intuition congruence. }
  rewrite Hiss.
  assert (Hkey :
    is_Some (stored_key g w (ACM.CertificateArn (ACM.info e))) <->
    exists key,
      ssm_parameters w !! get_ssm_param_name g (ACM.CertificateArn (ACM.info e))
      = Some key /\ key <> EmptyString).
  { unfold stored_key. destruct (ssm_parameters w !! _) as [key|].
    - destruct key as [|c key]; simpl.
      + split; [intros [? ?]; discriminate|].
        intros (k & [= <-] & Hk). contradiction.
      + split; [intros _; eexists; split; [reflexivity|discriminate] | eauto].
    - split; [intros [? ?]; discriminate | intros (k & ? & _); discriminate]. }
  rewrite Hkey. tauto.
Qed.

(** C2.  When no call fails, identifiers are unique and some stored
    certificate is eligible - listed as issued under the managed subject,
    imported, its alternate names the managed domains as a set, its issuer
    marked exactly in staging mode, a non-empty private key stored for it -
    [find_latest_cert] returns the record of an eligible certificate that
    was imported no earlier than any other eligible one; of exactly two
    eligible certificates it returns the one imported later. *)
Theorem find_latest_cert_selects_latest (g : Globals) (w : World) :
  no_faults w ->
  unique_arns w ->
  (exists e, In e (acm_certificates w) /\ eligible g w e = true) ->
  exists e key,
    In e (acm_certificates w)
    /\ eligible g w e = true
    /\ stored_key g w (ACM.CertificateArn (ACM.info e)) = Some key
    /\ fst (find_latest_cert g w) = Ok (Some (record_of e key))
    /\ (forall e', In e' (acm_certificates w) -> eligible g w e' = true ->
                   imported_le e' e = true)
    /\ (forall e1 e2,
          In e1 (acm_certificates w) -> In e2 (acm_certificates w) ->
          eligible g w e1 = true -> eligible g w e2 = true ->
          imported_le e2 e1 = false ->
          (forall e', In e' (acm_certificates w) -> eligible g w e' = true ->
                      e' = e1 \/ e' = e2) ->
          e = e2).
Proof.
  intros Hf Hu (e0 & Hin0 & Hel0).
  set (issued := List.filter (has_status ["ISSUED"%string]) (acm_certificates w)).
  assert (Hissued : forall e, In e issued ->
            find_entry (ACM.CertificateArn (ACM.info e)) (acm_certificates w)
            = Some e /\ has_status ["ISSUED"%string] e = true).
  { intros e [Hin Hs]%filter_In. split; [|exact Hs].
    apply find_entry_unique; assumption. }
  assert (Hlist : fst (acm_list_certificates_pages ["ISSUED"%string] w)
                  = Ok (pages (acm_page_size w) (map ACM.summary_of issued))).
  { unfold acm_list_certificates_pages, call. rewrite run_bind. simpl.
    rewrite Hf. reflexivity. }
  pose proof (fold_pick_best g w issued [] None (fun e (H : In e []) => match H with end))
    as Hbest.
  simpl in Hbest.
  pose proof (loop_pick g w issued None Hf Hissued I) as Hloop.
  assert (Hres := find_latest_cert_result g w).
  rewrite Hlist, for_each_concat, concat_pages, Hloop in Hres.
  destruct (fold_left (pick g w) issued None) as [[d key]|].
  2:{ exfalso. simpl in Hbest.
      rewrite Hbest in Hel0; [discriminate|].
      apply filter_In. split; [exact Hin0 | apply (eligible_listed g w), Hel0]. }
  destruct Hbest as (e & Hin & <- & Hel & Hkey & Hmax).
  destruct (Hissued e Hin) as [He _].
  rewrite (get_certificate_found w e Hf He) in Hres.
  apply filter_In in Hin as [Hin _].
  assert (Hmax' : forall e', In e' (acm_certificates w) ->
            eligible g w e' = true -> imported_le e' e = true).
  { intros e' Hin' Hel'. apply Hmax; [|exact Hel'].
    apply filter_In. split; [exact Hin' | apply (eligible_listed g w), Hel']. }
  exists e, key. repeat split; try assumption.
  intros e1 e2 Hin1 Hin2 Hel1 Hel2 Hlt Honly.
  destruct (Honly e Hin Hel) as [->| ->]; [|reflexivity].
  rewrite (Hmax' e2 Hin2 Hel2) in Hlt. discriminate.
Qed.

(** ** The sample deployment *)

Example sample_lower :
  Sample.lower_text "Fake LE Intermediate X1" = "fake le intermediate x1"%string
  /\ Sample.lower_text ("FA" +:+ Sample.kelvin_sign +:+ "E LE") = "fake le"%string
  /\ PyStr.ascii_lower ("FA" +:+ Sample.kelvin_sign +:+ "E LE")
     = ("fa" +:+ Sample.kelvin_sign +:+ "e le")%string.
Proof. vm_compute. auto. Qed.

(** In staging mode the certificate whose issuer spells the marker with a
    KELVIN SIGN is the one returned, and the production certificate is
    passed over. *)
Example sample_staging :
  fst (find_latest_cert Sample.staging_globals Sample.staging_world)
  = Ok (Some (record_of Sample.kelvin_issuer "KEY kelvin"))
  /\ has_staging_marker Sample.staging_world
       (ACM.Issuer (ACM.info Sample.kelvin_issuer)) = true
  /\ has_staging_marker Sample.staging_world
       (ACM.Issuer (ACM.info Sample.newest)) = false.
Proof. vm_compute. auto. Qed.

Example sample_param_name :
  get_ssm_param_name Sample.globals (Sample.arn "newest")
  = "/lets-encrypt/newest/PrivateKey"%string.
Proof. reflexivity. Qed.

Example sample_ordinal : toordinal (Date 2026 11 4) = 739924.
Proof. reflexivity. Qed.

Example sample_next_day :
  next_day (Date 2024 2 28) = Date 2024 2 29
  /\ next_day (Date 2023 2 28) = Date 2023 3 1
  /\ next_day (Date 2023 12 31) = Date 2024 1 1.
Proof. repeat split; reflexivity. Qed.

Example sample_located :
  fst (find_latest_cert Sample.globals Sample.world) = Ok (Some Sample.newest_record).
Proof. vm_compute. reflexivity. Qed.

Example sample_handler_valid :
  let '(r, w) := lambda_handler Sample.globals tt tt Sample.world in
  r = Ok (payload Sample.newest_record)
  /\ stdout w
     = [ "Found ACM certificate arn:aws:acm:eu-west-1:123456789012:certificate/newest";
         "Certificate has 58 days remaining" ]%string.
Proof. vm_compute. split; reflexivity. Qed.

Example sample_handler_expiring :
  let '(r, w) :=
    lambda_handler Sample.globals tt tt (Sample.world_on (Date 2026 12 2)) in
  r = Raise (NameError "certbot")
  /\ stdout w
     = [ "Found ACM certificate arn:aws:acm:eu-west-1:123456789012:certificate/newest";
         "Certificate has 30 days remaining";
         "Running certbot" ]%string
  /\ acm_certificates w = acm_certificates Sample.world
  /\ ssm_parameters w = ssm_parameters Sample.world.
Proof. vm_compute. repeat split; reflexivity. Qed.

Example sample_handler_expired :
  fst (get_days_remaining Sample.newest_record (Sample.world_on (Date 2027 1 2)))
  = Ok (-1)
  /\ fst (lambda_handler Sample.globals tt tt (Sample.world_on (Date 2027 1 2)))
     = Raise (NameError "certbot").
Proof. vm_compute. split; reflexivity. Qed.

Example sample_describe_denied :
  fst (lambda_handler Sample.globals tt tt
         (Sample.world_failing (Sample.describe_denied "other-names")))
  = Raise (ClientError "acm" "AccessDeniedException").
Proof. vm_compute. reflexivity. Qed.

Example sample_key_denied :
  fst (lambda_handler Sample.globals tt tt
         (Sample.world_failing (Sample.key_error "newest" "AccessDeniedException")))
  = Raise (ClientError "ssm" "AccessDeniedException").
Proof. vm_compute. reflexivity. Qed.

Example sample_key_not_found :
  fst (find_latest_cert Sample.globals
         (Sample.world_failing (Sample.key_error "newest" "ParameterNotFound")))
  = Ok (Some (record_of Sample.older "KEY older")).
Proof. vm_compute. reflexivity. Qed.

Example sample_no_certificate :
  let '(r, w) :=
    lambda_handler Sample.globals tt tt
      (set_acm_certificates [Sample.other_names; Sample.amazon_issued] Sample.world) in
  r = Raise (NameError "certbot")
  /\ stdout w = ["No ACM certificate found"; "Running certbot"]%string.
Proof. vm_compute. split; reflexivity. Qed.

Example sample_import :
  let '(r, w) :=
    import_cert Sample.globals
      [("Certificate", "BODY"); ("CertificateChain", "CHAIN");
       ("PrivateKey", "KEY")]%string Sample.world in
  r = Ok (Certificate.make "BODY" (Sample.arn "imported") "CHAIN"
            (Sample.noon 2027 2 2) "KEY")
  /\ ssm_parameters w !! "/lets-encrypt/imported/PrivateKey"%string = Some "KEY"%string
  /\ length (acm_certificates w) = 8%nat.
Proof. vm_compute. repeat split; reflexivity. Qed.

(** ** The theorems at the sample deployment *)

Lemma sample_no_faults : no_faults Sample.world.
Proof. intros c. reflexivity. Defined.

Lemma sample_unique_arns : unique_arns Sample.world.
Proof. apply (bool_decide_unpack _). vm_compute. exact I. Defined.

Lemma find_latest_cert_selects_latest_witness :
  exists e key,
    In e (acm_certificates Sample.world)
    /\ eligible Sample.globals Sample.world e = true
    /\ fst (find_latest_cert Sample.globals Sample.world)
       = Ok (Some (record_of e key)).
Proof.
  destruct (find_latest_cert_selects_latest Sample.globals Sample.world
              sample_no_faults sample_unique_arns)
    as (e & key & Hin & Hel & _ & Hres & _).
  - exists Sample.newest. split; [simpl; tauto | vm_compute; reflexivity].
  - exists e, key. auto.
Defined.

Lemma find_latest_cert_skips_other_domains_witness :
  selects Sample.globals Sample.world (Sample.arn "other-names") = false.
Proof.
  apply (find_latest_cert_skips_other_domains Sample.globals Sample.world
           (Sample.arn "other-names") Sample.other_names).
  - vm_compute. reflexivity.
  - apply (bool_decide_eq_false_1 _). vm_compute. reflexivity.
Defined.

Lemma find_latest_cert_skips_without_key_witness :
  selects Sample.globals Sample.world (Sample.arn "no-key") = false.
Proof.
  apply (find_latest_cert_skips_without_key Sample.globals Sample.world
           (Sample.arn "no-key") ssm_ParameterNotFound).
  vm_compute. reflexivity.
Defined.

Lemma find_latest_cert_skips_wrong_issuer_witness :
  selects Sample.globals Sample.world (Sample.arn "staging") = false.
Proof.
  apply (find_latest_cert_skips_wrong_issuer Sample.globals Sample.world
           (Sample.arn "staging") Sample.staging_issuer).
  - vm_compute. reflexivity.
  - vm_compute. discriminate.
Defined.

Lemma get_days_remaining_calendar_witness :
  fst (get_days_remaining Sample.newest_record (Sample.world_on (Date 2026 12 1)))
  = Ok 31
  /\ fst (lambda_handler Sample.globals tt tt (Sample.world_on (Date 2026 12 1)))
     = Ok (payload Sample.newest_record).
Proof.
  apply (get_days_remaining_calendar Sample.globals tt tt
           (Sample.world_on (Date 2026 12 1)) Sample.newest_record).
  - vm_compute. intuition discriminate.
  - vm_compute. reflexivity.
  - vm_compute. reflexivity.
Defined.

Lemma lambda_handler_idempotent_witness :
  exists w1 w2,
    lambda_handler Sample.globals tt tt Sample.world
    = (Ok (payload Sample.newest_record), w1)
    /\ lambda_handler Sample.globals tt tt w1
       = (Ok (payload Sample.newest_record), w2)
    /\ only_printed Sample.world w1 /\ only_printed w1 w2
    /\ acm_certificates w2 = acm_certificates Sample.world
    /\ ssm_parameters w2 = ssm_parameters Sample.world.
Proof.
  apply (lambda_handler_idempotent Sample.globals tt tt Sample.world
           Sample.newest_record).
  - vm_compute. reflexivity.
  - vm_compute. reflexivity.
Defined.

Lemma find_latest_cert_empty_key_as_absent_witness :
  selects Sample.globals Sample.world (Sample.arn "empty-key") = false
  /\ fst (find_latest_cert Sample.globals Sample.world)
     = fst (find_latest_cert Sample.globals
              (without_parameter "/lets-encrypt/empty-key/PrivateKey" Sample.world)).
Proof.
  destruct (find_latest_cert_empty_key_as_absent Sample.globals Sample.world
              (Sample.arn "empty-key")) as (_ & _ & Hsel & Hsame).
  - vm_compute. reflexivity.
  - split; [exact Hsel | exact Hsame].
Defined.

Lemma lambda_handler_renewal_raises_witness :
  fst (find_latest_cert Sample.globals
         (set_acm_certificates [Sample.other_names; Sample.amazon_issued]
            Sample.world)) = Ok None
  /\ fst (lambda_handler Sample.globals tt tt
            (set_acm_certificates [Sample.other_names; Sample.amazon_issued]
               Sample.world)) = Raise (NameError "certbot").
Proof.
  assert (Hnone :
    fst (find_latest_cert Sample.globals
           (set_acm_certificates [Sample.other_names; Sample.amazon_issued]
              Sample.world)) = Ok None) by (vm_compute; reflexivity).
  split; [exact Hnone|].
  pose proof (lambda_handler_renewal_raises Sample.globals tt tt
                (set_acm_certificates [Sample.other_names; Sample.amazon_issued]
                   Sample.world) eq_refl) as H.
  rewrite Hnone in H. exact H.
Defined.

(** * Further properties of the module *)

(** ** The Locator only reads *)

Lemma find_latest_cert_world (g : Globals) (w : World) :
  snd (find_latest_cert g w) = w
  \/ exists line, snd (find_latest_cert g w) = set_stdout (stdout w ++ [line]) w.
Proof.
  unfold find_latest_cert.
  rewrite run_bind, (reads_run _ w (reads_list _)).
  destruct (fst (acm_list_certificates_pages _ w)) as [ps|e]; simpl; [|auto].
  rewrite run_bind, (reads_run _ w (reads_pages g None ps)).
  destruct (fst (for_each (S:=latest) ps _ None w)) as [[[d key]|]|e]; simpl;
    [| |auto].
  - right. rewrite run_bind. simpl. rewrite run_bind.
    rewrite (reads_get_certificate _ w). simpl.
    destruct (fst (acm_get_certificate _ w)); simpl; eauto.
  - right. eauto.
Qed.

(** X1.  Whatever the stores hold and whichever calls fail,
    [find_latest_cert] writes nothing: the world it leaves is the one it
    found, with at most one more printed line. *)
Theorem find_latest_cert_read_only (g : Globals) (w : World) :
  exists lines,
    snd (find_latest_cert g w) = set_stdout (stdout w ++ lines) w
    /\ (length lines <= 1)%nat
    /\ acm_certificates (snd (find_latest_cert g w)) = acm_certificates w
    /\ ssm_parameters (snd (find_latest_cert g w)) = ssm_parameters w
    /\ files (snd (find_latest_cert g w)) = files w.
Proof.
  destruct (find_latest_cert_world g w) as [H|[line H]].
  - exists []. rewrite H, app_nil_r, set_stdout_same. simpl. auto.
  - exists [line]. rewrite H. simpl. auto.
Qed.

(** X2.  The record [find_latest_cert] returns hangs together: its body and
    chain are what ACM holds under its identifier, its expiry is the one ACM
    describes, and its private key is the non-empty value SSM holds under
    the name derived from that identifier. *)
Theorem find_latest_cert_record_consistent (g : Globals) (w : World)
    (cert : Certificate.t) :
  fst (find_latest_cert g w) = Ok (Some cert) ->
  exists e,
    fst (acm_get_certificate (Certificate.CertificateArn cert) w) = Ok e
    /\ Certificate.Certificate cert = ACM.Certificate e
    /\ Certificate.CertificateChain cert = ACM.CertificateChain e
    /\ fst (acm_describe_certificate (Certificate.CertificateArn cert) w)
       = Ok (ACM.info e)
    /\ Certificate.NotAfter cert = ACM.NotAfter (ACM.info e)
    /\ fst (get_private_key g (Certificate.CertificateArn cert) w)
       = Ok (Some (Certificate.PrivateKey cert))
    /\ Certificate.PrivateKey cert <> EmptyString.
Proof.
  intros Hfind. pose proof (find_latest_cert_cases g w) as H.
  pose proof (find_latest_cert_result g w) as Hres.
  rewrite Hfind in H, Hres. destruct H as (e & key & He & Hk & ->).
  destruct Hk as (Hd & _ & _ & _ & Hkey & Htrue).
  exists e. simpl.
  assert (Hget : fst (acm_get_certificate (ACM.CertificateArn (ACM.info e)) w) = Ok e).
  { destruct (fst (acm_list_certificates_pages _ w)) as [ps|?]; [|discriminate].
    destruct (fst (for_each (S:=latest) ps _ None w)) as [[[d k]|]|?];
      try discriminate.
    destruct (fst (acm_get_certificate (ACM.CertificateArn d) w)) as [e'|?] eqn:Hg;
      [|discriminate].
    assert (Ha : ACM.CertificateArn d = ACM.CertificateArn (ACM.info e))
      by (unfold record_of in Hres; congruence).
    rewrite <- Ha, Hg. f_equal.
    apply get_certificate_entry in Hg. rewrite Ha in Hg. congruence. }
  repeat split; try assumption; try reflexivity.
  - pose proof (get_private_key_cases g (ACM.CertificateArn (ACM.info e)) w) as Hc.
    rewrite Hkey in Hc. exact Hc.
  - intros ->. discriminate.
Qed.

Lemma find_latest_cert_record_consistent_witness :
  exists e,
    fst (acm_get_certificate (Sample.arn "newest") Sample.world) = Ok e
    /\ fst (get_private_key Sample.globals (Sample.arn "newest") Sample.world)
       = Ok (Some "KEY newest"%string).
Proof.
  destruct (find_latest_cert_record_consistent Sample.globals Sample.world
              Sample.newest_record) as (e & He & _ & _ & _ & _ & Hk & _).
  - vm_compute. reflexivity.
  - exists e. split; [exact He | exact Hk].
Defined.

(** ** Pages *)

Lemma describe_ext (w w' : World) (arn : string) :
  acm_certificates w' = acm_certificates w ->
  fault w' = fault w ->
  fst (acm_describe_certificate arn w') = fst (acm_describe_certificate arn w).
Proof.
  intros Hc Hf. unfold acm_describe_certificate, call.
  rewrite !run_bind. simpl. rewrite Hf. destruct (fault w _); [reflexivity|].
  rewrite !run_bind. simpl. rewrite Hc.
  destruct (find_entry arn _); reflexivity.
Qed.

Lemma get_certificate_ext (w w' : World) (arn : string) :
  acm_certificates w' = acm_certificates w ->
  fault w' = fault w ->
  fst (acm_get_certificate arn w') = fst (acm_get_certificate arn w).
Proof.
  intros Hc Hf. unfold acm_get_certificate, call.
  rewrite !run_bind. simpl. rewrite Hf. destruct (fault w _); [reflexivity|].
  rewrite !run_bind. simpl. rewrite Hc.
  destruct (find_entry arn _); reflexivity.
Qed.

Lemma usable_key_ext (g : Globals) (w w' : World) (arn : string) :
  ssm_parameters w' = ssm_parameters w ->
  fault w' = fault w ->
  usable_key g w' arn = usable_key g w arn.
Proof.
  intros Hp Hf. unfold usable_key. rewrite !get_private_key_value, Hp, Hf.
  reflexivity.
Qed.

(** X3.  How ACM cuts the listing into pages does not matter: with pages
    of any two sizes [find_latest_cert] gives the same result. *)
Theorem find_latest_cert_any_page_size (g : Globals) (w : World) (size : nat) :
  fst (find_latest_cert g (set_page_size size w)) = fst (find_latest_cert g w).
Proof.
  rewrite !find_latest_cert_result.
  assert (Hlist : forall w0,
    fst (acm_list_certificates_pages ["ISSUED"%string] w0)
    = match fault w0 ListCertificates with
      | Some code => Raise (ClientError "acm" code)
      | None =>
          Ok (pages (acm_page_size w0)
                (map ACM.summary_of
                   (List.filter (has_status ["ISSUED"%string])
                      (acm_certificates w0))))
      end).
  { intros w0. unfold acm_list_certificates_pages, call. rewrite run_bind. simpl.
    destruct (fault w0 ListCertificates); reflexivity. }
  rewrite !Hlist. simpl.
  destruct (fault w ListCertificates); [reflexivity|].
  rewrite !for_each_concat, !concat_pages.
  set (l := map ACM.summary_of _).
  assert (Hloop :
    fst (for_each l (find_latest_cert_step g) (None : latest) (set_page_size size w))
    = fst (for_each l (find_latest_cert_step g) (None : latest) w)).
  { apply for_each_ext; [apply reads_step|].
    intros st s _.
    apply step_ext; [reflexivity | apply describe_ext | apply usable_key_ext];
      reflexivity. }
  rewrite Hloop.
  destruct (fst (for_each l _ (None : latest) w)) as [[[d key]|]|e];
    try reflexivity.
  rewrite (get_certificate_ext w (set_page_size size w)) by reflexivity.
  reflexivity.
Qed.

(** ** The Locator as a fold over the inventory *)

Lemma fold_pick_issued (g : Globals) (w : World) (es : list ACM.entry)
    (st : latest) :
  fold_left (pick g w) (List.filter (has_status ["ISSUED"%string]) es) st
  = fold_left (pick g w) es st.
Proof.
  revert st. induction es as [|e es IH]; intros st; [reflexivity|].
  cbn [List.filter].
  destruct (has_status ["ISSUED"%string] e) eqn:Hs; cbn [fold_left]; [apply IH|].
  rewrite (pick_not_eligible g w st e); [apply IH|].
  unfold eligible, listed. rewrite Hs. reflexivity.
Qed.

Lemma locate_fold (g : Globals) (w : World) :
  no_faults w ->
  unique_arns w ->
  fst (find_latest_cert g w) =
  match fold_left (pick g w) (acm_certificates w) None with
  | None => Ok None
  | Some (d, key) =>
      match find_entry (ACM.CertificateArn d) (acm_certificates w) with
      | Some e =>
          Ok (Some (Certificate.make (ACM.Certificate e) (ACM.CertificateArn d)
                      (ACM.CertificateChain e) (ACM.NotAfter d) key))
      | None => Raise (ClientError "acm" "ResourceNotFoundException")
      end
  end.
Proof.
  intros Hf Hu.
  set (issued := List.filter (has_status ["ISSUED"%string]) (acm_certificates w)).
  assert (Hissued : forall e, In e issued ->
            find_entry (ACM.CertificateArn (ACM.info e)) (acm_certificates w)
            = Some e /\ has_status ["ISSUED"%string] e = true).
  { intros e [Hin Hs]%filter_In. split; [|exact Hs].
    apply find_entry_unique; assumption. }
  assert (Hlist : fst (acm_list_certificates_pages ["ISSUED"%string] w)
                  = Ok (pages (acm_page_size w) (map ACM.summary_of issued))).
  { unfold acm_list_certificates_pages, call. rewrite run_bind. simpl.
    rewrite Hf. reflexivity. }
  rewrite find_latest_cert_result, Hlist, for_each_concat, concat_pages.
  rewrite (loop_pick g w issued None Hf Hissued I).
  unfold issued. rewrite fold_pick_issued.
  destruct (fold_left (pick g w) (acm_certificates w) None) as [[d key]|];
    [|reflexivity].
  unfold acm_get_certificate, call. rewrite run_bind. simpl.
  rewrite Hf, run_bind. simpl.
  destruct (find_entry _ _); reflexivity.
Qed.

Lemma imported_le_total (g : Globals) (w : World) (a b : ACM.entry) :
  eligible g w a = true -> eligible g w b = true ->
  imported_le a b = false -> imported_le b a = true.
Proof.
  intros [ta Ha]%eligible_imported [tb Hb]%eligible_imported.
  unfold imported_le. rewrite Ha, Hb. apply datetime_le_total.
Qed.

Lemma imported_le_trans (a b c : ACM.entry) :
  imported_le a b = true -> imported_le b c = true -> imported_le a c = true.
Proof.
  unfold imported_le.
  destruct (ACM.ImportedAt (ACM.info a)), (ACM.ImportedAt (ACM.info b)),
    (ACM.ImportedAt (ACM.info c)); try discriminate.
  apply datetime_le_trans.
Qed.

Lemma pick_first_best (g : Globals) (w : World) (es : list ACM.entry)
    (st : latest) (x : ACM.entry) :
  first_best g w es st -> first_best g w (es ++ [x]) (pick g w st x).
Proof.
  intros Hbest.
  destruct (eligible g w x) eqn:Hel.
  - pose proof (eligible_imported g w x Hel) as [t Ht].
    assert (Hkey : exists key,
              stored_key g w (ACM.CertificateArn (ACM.info x)) = Some key).
    { revert Hel. unfold eligible. rewrite !andb_true_iff.
      intros [_ H]. apply bool_decide_eq_true_1 in H. destruct H as [k Hk]. eauto. }
    destruct Hkey as [key Hkey]. unfold pick. rewrite Hkey, Hel. simpl.
    destruct st as [[d0 k0]|]; simpl.
    + destruct Hbest as (l1 & e0 & l2 & -> & Hd0 & Hel0 & Hk0 & Hbefore & Hafter).
      pose proof (eligible_imported g w e0 Hel0) as [t0 Ht0].
      rewrite Ht. subst d0. rewrite Ht0.
      destruct (datetime_le t t0) eqn:Hle; simpl.
      * exists l1, e0, (l2 ++ [x]). rewrite <- app_assoc. simpl.
        repeat split; try assumption.
        intros e' [Hin'|[<-|[]]]%in_app_or Hel'; [apply Hafter; assumption|].
        unfold imported_le. rewrite Ht, Ht0. exact Hle.
      * exists (l1 ++ e0 :: l2), x, []. repeat split; try assumption;
          [|intros e' []].
        assert (Hx0 : imported_le x e0 = false)
          by (unfold imported_le; rewrite Ht, Ht0; exact Hle).
        assert (Hall : forall e', In e' (l1 ++ e0 :: l2) ->
                  eligible g w e' = true -> imported_le e' e0 = true).
        { intros e' [Hin'|[<-|Hin']]%in_app_or Hel'.
          - apply (imported_le_total g w); try assumption.
            apply Hbefore; assumption.
          - apply (imported_le_refl g w), Hel'.
          - apply Hafter; assumption. }
        intros e' Hin' Hel'.
        destruct (imported_le x e') eqn:Hxe; [|reflexivity].
        rewrite (imported_le_trans x e' e0 Hxe (Hall e' Hin' Hel')) in Hx0.
        discriminate.
    + exists es, x, []. repeat split; try assumption; [|intros e' []].
      intros e' Hin' Hel'. rewrite (Hbest e' Hin') in Hel'. discriminate.
  - rewrite pick_not_eligible by exact Hel.
    destruct st as [[d0 k0]|]; simpl in *.
    + destruct Hbest as (l1 & e0 & l2 & -> & Hd0 & Hel0 & Hk0 & Hbefore & Hafter).
      exists l1, e0, (l2 ++ [x]). rewrite <- app_assoc. simpl.
      repeat split; try assumption.
      intros e' [Hin'|[<-|[]]]%in_app_or Hel'; [apply Hafter; assumption|].
      congruence.
    + intros e' [Hin'|[<-|[]]]%in_app_or; [apply Hbest; assumption | exact Hel].
Qed.

Lemma fold_first_best (g : Globals) (w : World) (es done : list ACM.entry)
    (st : latest) :
  first_best g w done st ->
  first_best g w (done ++ es) (fold_left (pick g w) es st).
Proof.
  revert done st. induction es as [|e es IH]; intros done st Hbest; simpl.
  - rewrite app_nil_r. exact Hbest.
  - replace (done ++ e :: es) with ((done ++ [e]) ++ es)
      by (rewrite <- app_assoc; reflexivity).
    apply IH, pick_first_best, Hbest.
Qed.

Lemma locate_first_best (g : Globals) (w : World) :
  first_best g w (acm_certificates w)
    (fold_left (pick g w) (acm_certificates w) None).
Proof.
  apply (fold_first_best g w (acm_certificates w) [] None).
  intros e [].
Qed.

(** X4.  When no call fails and identifiers are unique, [find_latest_cert]
    returns [None] exactly when no stored certificate is eligible; it then
    prints that it found none and changes nothing else. *)
Theorem find_latest_cert_none_iff (g : Globals) (w : World) :
  no_faults w ->
  unique_arns w ->
  (fst (find_latest_cert g w) = Ok None
   <-> forall e, In e (acm_certificates w) -> eligible g w e = false)
  /\ (fst (find_latest_cert g w) = Ok None ->
      snd (find_latest_cert g w)
      = set_stdout (stdout w ++ ["No ACM certificate found"%string]) w).
Proof.
  intros Hf Hu. pose proof (locate_first_best g w) as Hbest.
  pose proof (locate_fold g w Hf Hu) as Hres.
  split.
  - rewrite Hres.
    destruct (fold_left (pick g w) (acm_certificates w) None) as [[d key]|];
      simpl in Hbest.
    + destruct Hbest as (l1 & e & l2 & Hes & Hd & Hel & _).
      split.
      * destruct (find_entry _ _); discriminate.
      * intros Hnone. rewrite Hnone in Hel; [discriminate|].
        rewrite Hes. apply in_or_app. right. left. reflexivity.
    + split; [intros _; exact Hbest | reflexivity].
  - intros Hnone. revert Hnone. unfold find_latest_cert.
    rewrite run_bind, (reads_run _ w (reads_list _)).
    destruct (fst (acm_list_certificates_pages _ w)) as [ps|e]; simpl;
      [|discriminate].
    rewrite run_bind, (reads_run _ w (reads_pages g None ps)).
    destruct (fst (for_each (S:=latest) ps _ None w)) as [[[d key]|]|e]; simpl;
      [| reflexivity | discriminate].
    rewrite run_bind. simpl. rewrite run_bind.
    rewrite (reads_get_certificate _ w). simpl.
    destruct (fst (acm_get_certificate _ w)); discriminate.
Qed.

Lemma find_latest_cert_none_iff_witness :
  fst (find_latest_cert Sample.globals
         (set_acm_certificates [Sample.other_names; Sample.amazon_issued]
            Sample.world)) = Ok None.
Proof.
  apply (find_latest_cert_none_iff Sample.globals
           (set_acm_certificates [Sample.other_names; Sample.amazon_issued]
              Sample.world)).
  - intros c. reflexivity.
  - apply (bool_decide_unpack _). vm_compute. exact I.
  - intros e [<-|[<-|[]]]; vm_compute; reflexivity.
Defined.

(** X5.  When no call fails and identifiers are unique, the certificate
    [find_latest_cert] returns is the first in listing order among the
    eligible ones imported latest: every eligible certificate listed before
    it was imported strictly earlier, every one listed after it no later.
    Of eligible certificates imported at the same time, the one ACM lists
    first is returned. *)
Theorem find_latest_cert_first_of_latest (g : Globals) (w : World)
    (cert : Certificate.t) :
  no_faults w ->
  unique_arns w ->
  fst (find_latest_cert g w) = Ok (Some cert) ->
  exists before e after key,
    acm_certificates w = before ++ e :: after
    /\ cert = record_of e key
    /\ eligible g w e = true
    /\ (forall e', In e' before -> eligible g w e' = true ->
                   imported_le e e' = false)
    /\ (forall e', In e' after -> eligible g w e' = true ->
                   imported_le e' e = true).
Proof.
  intros Hf Hu Hfind. pose proof (locate_first_best g w) as Hbest.
  rewrite (locate_fold g w Hf Hu) in Hfind.
  destruct (fold_left (pick g w) (acm_certificates w) None) as [[d key]|];
    [|discriminate].
  destruct Hbest as (l1 & e & l2 & Hes & <- & Hel & Hkey & Hbefore & Hafter).
  rewrite (find_entry_unique (acm_certificates w) e Hu) in Hfind.
  2:{ rewrite Hes. apply in_or_app. right. left. reflexivity. }
  injection Hfind as <-.
  exists l1, e, l2, key. auto.
Qed.

Lemma find_latest_cert_first_of_latest_witness :
  exists before e after key,
    acm_certificates Sample.world = before ++ e :: after
    /\ Sample.newest_record = record_of e key.
Proof.
  destruct (find_latest_cert_first_of_latest Sample.globals Sample.world
              Sample.newest_record sample_no_faults sample_unique_arns)
    as (l1 & e & l2 & key & H1 & H2 & _).
  - vm_compute. reflexivity.
  - exists l1, e, l2, key. auto.
Defined.

(** ** Registering a certificate *)

Lemma find_entry_app_new (arn : string) (certs : list ACM.entry) (e : ACM.entry) :
  find_entry arn certs = None ->
  ACM.CertificateArn (ACM.info e) = arn ->
  find_entry arn (certs ++ [e]) = Some e.
Proof.
  intros Hnone Harn. unfold find_entry in *.
  induction certs as [|c certs IH]; simpl in *.
  - rewrite Harn, String.eqb_refl. reflexivity.
  - destruct (String.eqb _ arn); [discriminate | apply IH, Hnone].
Qed.

Lemma import_cert_run (g : Globals) (w : World)
    (certificate chain private_key : string) :
  no_faults w ->
  let d := acm_new_detail w (acm_certificates w) certificate chain in
  find_entry (ACM.CertificateArn d) (acm_certificates w) = None ->
  import_cert g (cert_data_of certificate chain private_key) w
  = (Ok (Certificate.make certificate (ACM.CertificateArn d) chain
           (ACM.NotAfter d) private_key),
     set_stdout
       (stdout w ++ ["Importing certificate into ACM";
                     "Storing private key in SSM"]%string)
       (set_ssm_parameters
          (<[get_ssm_param_name g (ACM.CertificateArn d) := private_key]>
             (ssm_parameters w))
          (set_acm_certificates
             (acm_certificates w ++ [ACM.Entry d certificate chain]) w))).
Proof.
  intros Hf d Hfresh.
  unfold import_cert, cert_data_of, acm_import_certificate, ssm_put_parameter,
    acm_describe_certificate, call.
  do 12 (rewrite ?run_bind; simpl; rewrite ?Hf; simpl).
  fold d.
  rewrite (find_entry_app_new _ _ (ACM.Entry d certificate chain) Hfresh eq_refl).
  simpl. rewrite <- app_assoc. reflexivity.
Qed.

(** X6.  When no call fails and ACM assigns an identifier it has not used,
    [import_cert] returns the record of the new certificate - the texts it
    was given, the assigned identifier, the expiry ACM reports - and leaves
    the certificate at the end of the inventory and its private key in SSM
    under the name derived from the identifier: looked up afterwards, both
    come back as they were given. *)
Theorem import_cert_registers (g : Globals) (w : World)
    (certificate chain private_key : string) :
  no_faults w ->
  let d := acm_new_detail w (acm_certificates w) certificate chain in
  let arn := ACM.CertificateArn d in
  find_entry arn (acm_certificates w) = None ->
  let '(r, w') := import_cert g (cert_data_of certificate chain private_key) w in
  r = Ok (Certificate.make certificate arn chain (ACM.NotAfter d) private_key)
  /\ acm_certificates w' = acm_certificates w ++ [ACM.Entry d certificate chain]
  /\ ssm_parameters w'
     = <[get_ssm_param_name g arn := private_key]> (ssm_parameters w)
  /\ fst (acm_get_certificate arn w') = Ok (ACM.Entry d certificate chain)
  /\ fst (get_private_key g arn w') = Ok (Some private_key).
Proof.
  intros Hf d arn Hfresh.
  rewrite (import_cert_run g w certificate chain private_key Hf Hfresh).
  fold d. fold arn. repeat split.
  - unfold acm_get_certificate, call. rewrite run_bind. simpl.
    rewrite Hf, run_bind. simpl.
    rewrite (find_entry_app_new arn _ (ACM.Entry d certificate chain) Hfresh eq_refl).
    reflexivity.
  - rewrite get_private_key_value. simpl. rewrite Hf, lookup_insert_eq. reflexivity.
Qed.

Lemma import_cert_registers_witness :
  let '(r, w') :=
    import_cert Sample.globals (cert_data_of "BODY" "CHAIN" "KEY") Sample.world in
  r = Ok (Certificate.make "BODY" (Sample.arn "imported") "CHAIN"
            (Sample.noon 2027 2 2) "KEY")
  /\ fst (get_private_key Sample.globals (Sample.arn "imported") w')
     = Ok (Some "KEY"%string).
Proof.
  pose proof (import_cert_registers Sample.globals Sample.world "BODY" "CHAIN" "KEY"
                sample_no_faults) as H.
  cbv zeta in H. specialize (H eq_refl).
  destruct (import_cert _ _ _) as [r w'].
  destruct H as (Hr & _ & _ & _ & Hk). split; [exact Hr | exact Hk].
Defined.

Lemma find_entry_none_fresh (arn : string) (certs : list ACM.entry) :
  find_entry arn certs = None ->
  arn ∉ map (fun e => ACM.CertificateArn (ACM.info e)) certs.
Proof.
  intros Hnone Hin. apply list_elem_of_In, in_map_iff in Hin as (e & Harn & Hin).
  unfold find_entry in Hnone.
  apply (find_none _ _ Hnone) in Hin. rewrite Harn, String.eqb_refl in Hin.
  discriminate.
Qed.

(** X7.  A certificate registered by [import_cert] is what
    [find_latest_cert] returns next, provided ACM records it as the Locator
    wants it - issued under the managed subject, imported, with the managed
    domains as alternate names and the issuer of the mode - its key is not
    empty, and it was imported later than every certificate already there. *)
Theorem import_cert_then_find_latest_cert (g : Globals) (w : World)
    (certificate chain private_key : string) :
  no_faults w ->
  unique_arns w ->
  let d := acm_new_detail w (acm_certificates w) certificate chain in
  let new := ACM.Entry d certificate chain in
  find_entry (ACM.CertificateArn d) (acm_certificates w) = None ->
  listed g new = true ->
  is_Some (ACM.ImportedAt d) ->
  py_set (ACM.SubjectAlternativeNames d) = py_set (DOMAINS g) ->
  PyStr.contains "fake" (str_lower w (ACM.Issuer d)) = STAGING g ->
  private_key <> EmptyString ->
  (forall e, In e (acm_certificates w) -> imported_le new e = false) ->
  let '(r, w') := import_cert g (cert_data_of certificate chain private_key) w in
  exists cert, r = Ok cert /\ fst (find_latest_cert g w') = Ok (Some cert).
Proof.
  intros Hf Hu d new Hfresh Hlisted Himp Hset Hiss Hkey Hnewer.
  rewrite (import_cert_run g w certificate chain private_key Hf Hfresh).
  fold d. fold new.
  set (w' := set_stdout _ _).
  eexists. split; [reflexivity|].
  assert (Hf' : no_faults w') by exact Hf.
  assert (Hu' : unique_arns w').
  { unfold unique_arns. simpl. rewrite map_app. simpl.
    apply NoDup_app. split; [exact Hu|]. split.
    - intros x Hx [Hnew|[]]%list_elem_of_In. subst x.
      exact (find_entry_none_fresh _ _ Hfresh Hx).
    - apply NoDup_singleton. }
  assert (Hstored : stored_key g w' (ACM.CertificateArn d) = Some private_key).
  { unfold stored_key. simpl. rewrite lookup_insert_eq.
    destruct private_key; [contradiction | reflexivity]. }
  assert (Hel : eligible g w' new = true).
  { unfold eligible. rewrite Hlisted. simpl. fold d. rewrite Hstored, Hiss.
    rewrite !bool_decide_eq_true_2 by eauto. rewrite Bool.eqb_reflx. reflexivity. }
  pose proof (fold_pick_best g w' (acm_certificates w') [] None
                (fun e (H : In e []) => match H with end)) as Hbest.
  rewrite (locate_fold g w' Hf' Hu').
  rewrite app_nil_l in Hbest. unfold best in Hbest.
  assert (Hin_new : In new (acm_certificates w'))
    by (simpl; apply in_or_app; right; left; reflexivity).
  destruct (fold_left (pick g w') (acm_certificates w') None) as [[d' key']|].
  2:{ exfalso. rewrite (Hbest new Hin_new) in Hel. discriminate. }
  destruct Hbest as (e & Hin & <- & Hele & Hke & Hmax).
  assert (He : e = new).
  { simpl in Hin. apply in_app_or in Hin as [Hin|[<-|[]]]; [|reflexivity].
    exfalso.
    assert (Hle : imported_le new e = true).
    { apply Hmax; [exact Hin_new | exact Hel]. }
    rewrite (Hnewer e Hin) in Hle. discriminate. }
  subst e. simpl.
  rewrite (find_entry_app_new _ _ new Hfresh eq_refl).
  simpl in Hke. fold d in Hke. rewrite Hstored in Hke. injection Hke as <-.
  reflexivity.
Qed.

Lemma import_cert_then_find_latest_cert_witness :
  let '(r, w') :=
    import_cert Sample.globals (cert_data_of "BODY" "CHAIN" "KEY") Sample.world in
  exists cert, r = Ok cert /\ fst (find_latest_cert Sample.globals w') = Ok (Some cert).
Proof.
  apply (import_cert_then_find_latest_cert Sample.globals Sample.world
           "BODY" "CHAIN" "KEY" sample_no_faults sample_unique_arns).
  - reflexivity.
  - reflexivity.
  - eexists. reflexivity.
  - apply (bool_decide_unpack _). vm_compute. exact I.
  - reflexivity.
  - discriminate.
  - intros e He. simpl in He.
    repeat (destruct He as [<-|He]; [vm_compute; reflexivity|]).
    destruct He.
Defined.

(** X8.  When ACM refuses the import, [import_cert] raises that error
    having written nothing: one line was printed, the inventory and the
    secret store are untouched. *)
Theorem import_cert_refused_writes_nothing (g : Globals) (w : World)
    (certificate chain private_key code : string) :
  fault w ImportCertificate = Some code ->
  import_cert g (cert_data_of certificate chain private_key) w
  = (Raise (ClientError "acm" code),
     set_stdout (stdout w ++ ["Importing certificate into ACM"%string]) w).
Proof.
  intros Hf.
  unfold import_cert, cert_data_of, acm_import_certificate, call.
  do 3 (rewrite ?run_bind; simpl; rewrite ?Hf; simpl). reflexivity.
Qed.

Lemma import_cert_refused_writes_nothing_witness :
  fst (import_cert Sample.globals (cert_data_of "BODY" "CHAIN" "KEY")
         (Sample.world_failing
            (fun c => match c with
                      | ImportCertificate => Some "LimitExceededException"%string
                      | _ => None
                      end)))
  = Raise (ClientError "acm" "LimitExceededException").
Proof.
  rewrite (import_cert_refused_writes_nothing Sample.globals _ "BODY" "CHAIN" "KEY"
             "LimitExceededException"); reflexivity.
Defined.

Lemma ssm_get_parameter_value (name : string) (w : World) :
  fst (ssm_get_parameter name w) =
  match fault w (GetParameter name) with
  | Some code => Raise (ClientError "ssm" code)
  | None =>
      match ssm_parameters w !! name with
      | Some value => Ok value
      | None => Raise ssm_ParameterNotFound
      end
  end.
Proof.
  unfold ssm_get_parameter, call. rewrite run_bind. simpl.
  destruct (fault w _); [reflexivity|].
  rewrite run_bind. simpl. destruct (ssm_parameters w !! name); reflexivity.
Qed.

(** X9.  When the import goes through and SSM then refuses the parameter,
    [import_cert] raises that error with the certificate already in the
    inventory and no key stored; if no parameter of that name was there
    before, [find_latest_cert] will never return the stranded certificate. *)
Theorem import_cert_key_refused_strands_certificate (g : Globals) (w : World)
    (certificate chain private_key code : string) :
  let d := acm_new_detail w (acm_certificates w) certificate chain in
  let name := get_ssm_param_name g (ACM.CertificateArn d) in
  fault w ImportCertificate = None ->
  fault w (PutParameter name) = Some code ->
  let '(r, w') := import_cert g (cert_data_of certificate chain private_key) w in
  r = Raise (ClientError "ssm" code)
  /\ acm_certificates w' = acm_certificates w ++ [ACM.Entry d certificate chain]
  /\ ssm_parameters w' = ssm_parameters w
  /\ (ssm_parameters w !! name = None ->
      selects g w' (ACM.CertificateArn d) = false).
Proof.
  intros d name Hi Hp.
  unfold import_cert, cert_data_of, acm_import_certificate, ssm_put_parameter, call.
  do 6 (rewrite ?run_bind; simpl; rewrite ?Hi; simpl).
  fold d. fold name. rewrite Hp. simpl.
  repeat split.
  intros Hnone.
  match goal with |- selects g ?w0 _ = false => set (w' := w0) end.
  destruct (selects g w' (ACM.CertificateArn d)) eqn:Hsel; [|reflexivity].
  apply selects_chosen in Hsel as (e & key & _ & Harn & Hk).
  destruct Hk as (_ & _ & _ & _ & Hkey & _).
  rewrite Harn, ssm_get_parameter_value in Hkey. simpl in Hkey.
  fold name in Hkey. rewrite Hnone in Hkey.
  destruct (fault w (GetParameter name)); discriminate.
Qed.

Lemma import_cert_key_refused_strands_certificate_witness :
  let w := Sample.world_failing
             (fun c => match c with
                       | PutParameter _ => Some "AccessDeniedException"%string
                       | _ => None
                       end) in
  let '(r, w') := import_cert Sample.globals (cert_data_of "BODY" "CHAIN" "KEY") w in
  r = Raise (ClientError "ssm" "AccessDeniedException")
  /\ length (acm_certificates w') = 8%nat.
Proof.
  intros w.
  pose proof (import_cert_key_refused_strands_certificate Sample.globals w
                "BODY" "CHAIN" "KEY" "AccessDeniedException") as H.
  cbv zeta in H. specialize (H eq_refl eq_refl).
  destruct (import_cert _ _ _) as [r w'].
  destruct H as (Hr & Hc & _). split; [exact Hr|]. rewrite Hc. reflexivity.
Defined.

(** ** What a failed renewal leaves behind *)

Lemma provision_cert_world (g : Globals) (w : World) :
  snd (provision_cert g w) =
  match fault w MakeTemporaryDirectory with
  | Some _ => w
  | None =>
      set_files (remove_tree (next_temporary_directory w) (files w))
        (set_stdout (stdout w ++ ["Running certbot"%string]) w)
  end.
Proof.
  unfold provision_cert, with_TemporaryDirectory.
  destruct (fault w MakeTemporaryDirectory); reflexivity.
Qed.

(** X10.  [provision_cert] touches neither the inventory nor the secret
    store, and when it has had its temporary directory no file at or below
    that directory is left, while every other file is as it was. *)
Theorem provision_cert_cleans_up (g : Globals) (w : World) :
  let w' := snd (provision_cert g w) in
  acm_certificates w' = acm_certificates w
  /\ ssm_parameters w' = ssm_parameters w
  /\ (forall path,
        below (next_temporary_directory w) path = false ->
        files w' !! path = files w !! path)
  /\ (fault w MakeTemporaryDirectory = None ->
      forall path,
        below (next_temporary_directory w) path = true ->
        files w' !! path = None).
Proof.
  intros w'. subst w'. rewrite provision_cert_world.
  destruct (fault w MakeTemporaryDirectory) as [message|]; simpl.
  - repeat split. discriminate.
  - repeat split.
    + intros path Hb. unfold remove_tree.
      destruct (files w !! path) as [text|] eqn:Hp.
      * apply map_lookup_filter_Some. split; [exact Hp | exact Hb].
      * apply map_lookup_filter_None. left. exact Hp.
    + intros _ path Hb. unfold remove_tree.
      apply map_lookup_filter_None. right. intros text _. simpl.
      rewrite Hb. discriminate.
Qed.

Lemma renewal_world (g : Globals) (w : World) :
  snd (renewal g w) = snd (provision_cert g w).
Proof.
  unfold renewal. rewrite run_bind.
  pose proof (provision_cert_result g w) as H.
  destruct (provision_cert g w) as [[cert_data|e] w']; simpl in *;
    [discriminate | reflexivity].
Qed.

(** X11.  As the module stands, [lambda_handler] never changes the
    inventory or the secret store, whatever it finds and however it ends:
    nothing is imported and no parameter is written. *)
Theorem lambda_handler_never_writes (g : Globals) {E C} (event : E) (context : C)
    (w : World) :
  acm_certificates (snd (lambda_handler g event context w)) = acm_certificates w
  /\ ssm_parameters (snd (lambda_handler g event context w)) = ssm_parameters w.
Proof.
  rewrite lambda_handler_run.
  destruct (find_latest_cert_run g w) as (w1 & Hrun & Hw1).
  remember (fst (find_latest_cert g w)) as r eqn:Hr. rewrite Hrun. clear Hrun Hr.
  destruct (only_printed_stores w w1 Hw1) as (Hc1 & Hp1 & _).
  assert (Hrenew : forall w0,
            acm_certificates (snd (renewal g w0)) = acm_certificates w0
            /\ ssm_parameters (snd (renewal g w0)) = ssm_parameters w0).
  { intros w0. rewrite renewal_world, provision_cert_world.
    destruct (fault w0 MakeTemporaryDirectory); auto. }
  destruct r as [[cert|]|e].
  - destruct (get_days_remaining_run cert w1) as (w2 & -> & Hw2).
    destruct (only_printed_stores w1 w2 Hw2) as (Hc2 & Hp2 & _).
    destruct (_ <=? 30).
    + destruct (Hrenew w2) as [-> ->]. split; congruence.
    + simpl. split; congruence.
  - destruct (Hrenew w1) as [-> ->]. auto.
  - simpl. auto.
Qed.

(** ** Counting the days *)

(** X12.  [get_days_remaining] counts down by one with every day that
    passes: [n] days later it returns [n] less.  So a certificate that has
    come within the 30 days stays within them. *)
Theorem get_days_remaining_counts_down (cert : Certificate.t) (w : World)
    (n : nat) :
  valid_date (today w) ->
  let later := set_today (add_days n (today w)) w in
  fst (get_days_remaining cert later)
  = Ok (sub_days (expiry_date cert) (today w) - Z.of_nat n)
  /\ (sub_days (expiry_date cert) (today w) <= 30 ->
      sub_days (expiry_date cert) (today later) <= 30).
Proof.
  intros Hv later. subst later.
  rewrite get_days_remaining_value. simpl. unfold sub_days.
  destruct (add_days_ordinal n _ Hv) as [-> _].
  split; [f_equal; lia | lia].
Qed.

Lemma get_days_remaining_counts_down_witness :
  fst (get_days_remaining Sample.newest_record
         (set_today (add_days 28 (today Sample.world)) Sample.world))
  = Ok (58 - 28).
Proof.
  apply (get_days_remaining_counts_down Sample.newest_record Sample.world 28).
  vm_compute. intuition discriminate.
Defined.

(** ** Parameter names *)

Lemma split_nonempty (sep : ascii) (s : string) : PyStr.split sep s <> [].
Proof.
  destruct s as [|c s]; simpl; [discriminate|].
  destruct (Ascii.eqb c sep); [discriminate|].
  destruct (PyStr.split sep s); discriminate.
Qed.

Lemma split_app (sep : ascii) (a b : string) :
  PyStr.split sep (a +:+ String sep b) = PyStr.split sep a ++ PyStr.split sep b.
Proof.
  induction a as [|c a IH].
  - change (EmptyString +:+ String sep b) with (String sep b). simpl.
    rewrite Ascii.eqb_refl. reflexivity.
  - rewrite append_cons. simpl. rewrite IH.
    destruct (Ascii.eqb c sep); [reflexivity|].
    pose proof (split_nonempty sep a) as Hne.
    destruct (PyStr.split sep a) as [|piece pieces]; [contradiction|].
    reflexivity.
Qed.

Lemma split_no_sep (sep : ascii) (s : string) :
  PyStr.contains (String sep EmptyString) s = false -> PyStr.split sep s = [s].
Proof.
  induction s as [|c s IH]; [reflexivity|].
  rewrite contains_cons. intros [Hp Hc]%orb_false_elim. simpl in Hp.
  simpl. destruct (Ascii.eqb_spec c sep) as [->|Hne].
  - exfalso. revert Hp. destruct (ascii_dec sep sep); [|contradiction].
    destruct s; discriminate.
  - rewrite (IH Hc). reflexivity.
Qed.

Lemma last_app_nonempty {A} (l l' : list A) (d : A) :
  l' <> [] -> List.last (l ++ l') d = List.last l' d.
Proof.
  intros Hne. induction l as [|x l IH]; [reflexivity|].
  simpl. destruct (l ++ l') eqn:Hl; [|exact IH].
  apply app_eq_nil in Hl as [_ ->]. contradiction.
Qed.

Lemma last_piece_of_path (prefix id : string) :
  PyStr.contains "/" id = false ->
  PyStr.last_piece (PyStr.split "/" (prefix +:+ "/" +:+ id)) = id.
Proof.
  intros Hid. unfold PyStr.last_piece.
  change (prefix +:+ "/" +:+ id) with (prefix +:+ String "/" id).
  rewrite split_app, last_app_nonempty by apply split_nonempty.
  rewrite (split_no_sep "/" id Hid). reflexivity.
Qed.

Lemma append_inv_head (a x y : string) : a +:+ x = a +:+ y -> x = y.
Proof.
  induction a as [|c a IH]; [exact (fun H => H)|].
  rewrite !append_cons. intros [= H]. apply IH, H.
Qed.

Lemma length_append (a b : string) :
  String.length (a +:+ b) = (String.length a + String.length b)%nat.
Proof.
  induction a as [|c a IH]; [reflexivity|].
  rewrite append_cons. simpl. rewrite IH. reflexivity.
Qed.

Lemma append_inv_tail (x y c : string) : x +:+ c = y +:+ c -> x = y.
Proof.
  revert y. induction x as [|a x IH]; intros [|b y] H.
  - reflexivity.
  - apply (f_equal String.length) in H. rewrite !length_append in H.
    simpl in H. lia.
  - apply (f_equal String.length) in H. rewrite !length_append in H.
    simpl in H. lia.
  - rewrite !append_cons in H. injection H as -> H. f_equal. apply IH, H.
Qed.

(** X14.  The SSM parameter name is made of the function name and of what
    follows the last slash of the certificate's ARN, nothing else: an ARN
    without any slash counts whole, and two ARNs give the same name exactly
    when they end in the same identifier - whatever region or account
    stands before it. *)
Theorem get_ssm_param_name_by_identifier (g : Globals) (prefix1 prefix2 id1 id2 : string) :
  PyStr.contains "/" id1 = false ->
  PyStr.contains "/" id2 = false ->
  get_ssm_param_name g (prefix1 +:+ "/" +:+ id1)
  = "/" +:+ FUNCTION_NAME g +:+ "/" +:+ id1 +:+ "/PrivateKey"
  /\ get_ssm_param_name g id1
     = "/" +:+ FUNCTION_NAME g +:+ "/" +:+ id1 +:+ "/PrivateKey"
  /\ (get_ssm_param_name g (prefix1 +:+ "/" +:+ id1)
      = get_ssm_param_name g (prefix2 +:+ "/" +:+ id2)
      <-> id1 = id2).
Proof.
  intros H1 H2. unfold get_ssm_param_name.
  rewrite !last_piece_of_path by assumption.
  unfold PyStr.last_piece at 1. rewrite (split_no_sep "/" id1 H1). simpl List.last.
  repeat split.
  - intros H. apply append_inv_head, append_inv_head, append_inv_head in H.
    apply append_inv_tail in H. exact H.
  - intros ->. reflexivity.
Qed.

Lemma get_ssm_param_name_by_identifier_witness :
  get_ssm_param_name Sample.globals
    ("arn:aws:acm:eu-west-1:123456789012:certificate" +:+ "/" +:+ "newest")
  = get_ssm_param_name Sample.globals
      ("arn:aws:acm:us-east-1:999999999999:certificate" +:+ "/" +:+ "newest").
Proof.
  apply (get_ssm_param_name_by_identifier Sample.globals
           "arn:aws:acm:eu-west-1:123456789012:certificate"
           "arn:aws:acm:us-east-1:999999999999:certificate" "newest" "newest");
    reflexivity.
Defined.

(** ** Certificates issued by ACM itself *)

(** X15.  A stored certificate that was not imported - ACM describes it
    without an import time - is never the one [find_latest_cert] returns,
    whatever its names, issuer and key, and whichever calls fail. *)
Theorem find_latest_cert_skips_not_imported (g : Globals) (w : World)
    (arn : string) (e : ACM.entry) :
  find_entry arn (acm_certificates w) = Some e ->
  ACM.ImportedAt (ACM.info e) = None ->
  selects g w arn = false.
Proof.
  intros He Hnone. destruct (selects g w arn) eqn:Hsel; [|reflexivity].
  apply selects_chosen in Hsel as (e' & key & He' & _ & Hk).
  assert (e' = e) by congruence. subst e'.
  destruct Hk as (_ & [t Ht] & _). congruence.
Qed.

Lemma find_latest_cert_skips_not_imported_witness :
  selects Sample.globals Sample.world (Sample.arn "amazon") = false.
Proof.
  apply (find_latest_cert_skips_not_imported Sample.globals Sample.world
           (Sample.arn "amazon") Sample.amazon_issued); reflexivity.
Defined.
